(** * Soldered Pomodoro Timer firmware: display driver, countdown and
      configuration loops

    A shallow embedding of [seven_segment.py] (class [SevenSegmentDisplay])
    and of [main.py] ([countdown], [set_times], [main]), with the properties
    of the display buffer, the multiplex refresh callback, the countdown
    state machine and the button debouncing proved over it. *)

From Stdlib Require Import ZArith Lia Ascii String DecimalString.
From stdpp Require Import base list strings.

Local Open Scope string_scope.
Local Open Scope list_scope.
Local Open Scope Z_scope.

(** ** Python values and [str()] *)

Module Py.

(** The values that can be handed to [display.write].  [PyObj shown] stands
    for a value of any other type: [shown] is the string that its [__str__]
    returns, and [None] when its [__str__] raises or returns something that
    is not a string, so that [str()] raises. *)
Inductive value : Type :=
| PyNone
| PyBool (b : bool)
| PyInt (n : Z)
| PyStr (s : string)
| PyObj (shown : option string).

(** [str(n)] for an integer: decimal digits, a leading minus sign for
    negative numbers. *)
Definition str_of_int (n : Z) : string :=
  NilZero.string_of_int (Z.to_int n).

(** [str(v)]; [None] when it raises. *)
Definition str (v : value) : option string :=
  match v with
  | PyNone => Some "None"
  | PyBool true => Some "True"
  | PyBool false => Some "False"
  | PyInt n => Some (str_of_int n)
  | PyStr s => Some s
  | PyObj shown => shown
  end.

(** [s * k]: the string [s] repeated [k] times. *)
Fixpoint str_mul (s : string) (k : nat) : string :=
  match k with
  | O => ""
  | S k' => (s ++ str_mul s k')%string
  end.

(** [text[:n]] *)
Definition slice_to (n : nat) (text : string) : string :=
  String.substring 0 n text.

(** [text[n:]] *)
Fixpoint slice_from (n : nat) (text : string) : string :=
  match n, text with
  | O, _ => text
  | S n', String _ rest => slice_from n' rest
  | S _, EmptyString => ""
  end.

(** [list(text)]: the characters of a string, in order. *)
Definition list_of_str (text : string) : list ascii :=
  list_ascii_of_string text.

(** The format spec [{n:02}] applied to an integer: [0] fill with minimum
    width 2; the sign, if any, stays in front of the padding. *)
Definition format_02 (n : Z) : string :=
  let body := str_of_int (Z.abs n) in
  let sign := if n <? 0 then "-" else "" in
  let width := (String.length sign + String.length body)%nat in
  (sign ++ str_mul "0" (2 - width) ++ body)%string.

End Py.

(** ** [seven_segment.py]: class [SevenSegmentDisplay] *)

Module SevenSegment.

(** Logical signal levels of the kit's wiring. *)
Definition SEGMENT_ON : Z := 1.
Definition SEGMENT_OFF : Z := 0.
Definition DIGIT_ON : Z := 0.
Definition DIGIT_OFF : Z := 1.

(** The instance attributes.  A [machine.Pin] configured as output is
    represented by the level last driven on it. *)
Record SevenSegmentDisplay : Type := mkDisplay {
  segments : list Z;
  digits : list Z;
  dp : Z;
  buffer : list ascii;
  dotmask : list bool;
  current_digit : Z
}.

(** [self.patterns]: character to segment pattern, order [a,b,c,d,e,f,g]. *)
Definition patterns : list (ascii * list Z) :=
  [ ("0"%char, [1;1;1;1;1;1;0]); ("1"%char, [0;1;1;0;0;0;0]);
    ("2"%char, [1;1;0;1;1;0;1]); ("3"%char, [1;1;1;1;0;0;1]);
    ("4"%char, [0;1;1;0;0;1;1]); ("5"%char, [1;0;1;1;0;1;1]);
    ("6"%char, [1;0;1;1;1;1;1]); ("7"%char, [1;1;1;0;0;0;0]);
    ("8"%char, [1;1;1;1;1;1;1]); ("9"%char, [1;1;1;1;0;1;1]);
    ("-"%char, [0;0;0;0;0;0;1]); (" "%char, [0;0;0;0;0;0;0]);
    ("A"%char, [1;1;1;0;1;1;1]); ("B"%char, [0;0;1;1;1;1;1]);
    ("C"%char, [1;0;0;1;1;1;0]); ("D"%char, [0;1;1;1;1;0;1]);
    ("E"%char, [1;0;0;1;1;1;1]); ("F"%char, [1;0;0;0;1;1;1]) ].

(** [d.get(ch, default)] on a dict given by its items. *)
Fixpoint dict_get {V : Type} (d : list (ascii * V)) (ch : ascii) (default : V) : V :=
  match d with
  | [] => default
  | (k, v) :: rest => if Ascii.eqb k ch then v else dict_get rest ch default
  end.

(** [len(self.digits)] *)
Definition ndigits (self : SevenSegmentDisplay) : nat := length (digits self).

(** [__init__]: seven segment pins, four digit pins, a blank buffer, no dots,
    cursor at digit 0, every digit enable driven to [DIGIT_OFF].  A fresh
    output pin is taken to read 0 until it is driven. *)
Definition init : SevenSegmentDisplay :=
  let segment_pin_numbers := [2; 3; 4; 5; 6; 7; 8] in
  let digit_pin_numbers := [10; 11; 12; 13] in
  let n := length digit_pin_numbers in
  {| segments := (fun _ : Z => 0) <$> segment_pin_numbers;
     digits := (fun _ : Z => DIGIT_OFF) <$> digit_pin_numbers;
     dp := 0;
     buffer := replicate n " "%char;
     dotmask := replicate n false;
     current_digit := 0 |}.

(** [clear] *)
Definition clear (self : SevenSegmentDisplay) : SevenSegmentDisplay :=
  {| segments := segments self; digits := digits self; dp := dp self;
     buffer := replicate (ndigits self) " "%char;
     dotmask := replicate (ndigits self) false;
     current_digit := current_digit self |}.

(** The text [write] stores: the string [text], padded on the right with
    spaces or cut to [n] characters. *)
Definition fit (n : nat) (text : string) : string :=
  if (String.length text <? n)%nat then
    (text ++ Py.str_mul " " (n - String.length text))%string
  else if (n <? String.length text)%nat then
    Py.slice_to n text
  else text.

(** [write] after its first statement, [text] being a string by then. *)
Definition write_str (self : SevenSegmentDisplay) (text : string) : SevenSegmentDisplay :=
  {| segments := segments self; digits := digits self; dp := dp self;
     buffer := Py.list_of_str (fit (ndigits self) text);
     dotmask := dotmask self;
     current_digit := current_digit self |}.

(** [write]: [text = str(text)] comes first, so the call raises what
    [str] raises, [None] here, before any attribute is assigned. *)
Definition write (self : SevenSegmentDisplay) (text : Py.value)
  : option SevenSegmentDisplay :=
  text ← Py.str text; Some (write_str self text).

(** [set_decimal_point] *)
Definition set_decimal_point (self : SevenSegmentDisplay) (position : Z) (state : bool)
  : SevenSegmentDisplay :=
  if (0 <=? position) && (position <? Z.of_nat (ndigits self)) then
    {| segments := segments self; digits := digits self; dp := dp self;
       buffer := buffer self;
       dotmask := <[Z.to_nat position := state]> (dotmask self);
       current_digit := current_digit self |}
  else self.

(** Indexing [xs[i]] with an index that is never negative here; [None] is
    Python's [IndexError]. *)
Definition index {A : Type} (xs : list A) (i : Z) : option A :=
  if i <? 0 then None else xs !! Z.to_nat i.

(** [pins[i].value(level)]: drive one pin of a list of pins. *)
Definition drive (pins : list Z) (i : Z) (level : Z) : option (list Z) :=
  match index pins i with
  | Some _ => Some (<[Z.to_nat i := level]> pins)
  | None => None
  end.

(** The steps of the timer callback [_refresh], in the order of the source. *)

(** Step 1: turn off the previously selected digit. *)
Definition refresh_deselect (self : SevenSegmentDisplay) : option SevenSegmentDisplay :=
  let prev_digit := (current_digit self - 1) `mod` Z.of_nat (ndigits self) in
  digits' ← drive (digits self) prev_digit DIGIT_OFF;
  Some {| segments := segments self; digits := digits'; dp := dp self;
          buffer := buffer self; dotmask := dotmask self;
          current_digit := current_digit self |}.

(** Steps 2 to 4: read the character, drive the segment pins from its
    pattern, drive the decimal point from the dot mask. *)
Definition refresh_segments (self : SevenSegmentDisplay) : option SevenSegmentDisplay :=
  ch ← index (buffer self) (current_digit self);
  let pattern := dict_get patterns ch (dict_get patterns " "%char []) in
  segments' ← mapM (fun i : nat =>
                      bit ← pattern !! i;
                      Some (if bit =? 0 then SEGMENT_OFF else SEGMENT_ON))
                   (seq 0 (length (segments self)));
  dot ← index (dotmask self) (current_digit self);
  Some {| segments := segments';
          digits := digits self;
          dp := if (dot : bool) then SEGMENT_ON else SEGMENT_OFF;
          buffer := buffer self; dotmask := dotmask self;
          current_digit := current_digit self |}.

(** Step 5: enable the current digit. *)
Definition refresh_select (self : SevenSegmentDisplay) : option SevenSegmentDisplay :=
  digits' ← drive (digits self) (current_digit self) DIGIT_ON;
  Some {| segments := segments self; digits := digits'; dp := dp self;
          buffer := buffer self; dotmask := dotmask self;
          current_digit := current_digit self |}.

(** Step 6: move to the next digit. *)
Definition refresh_advance (self : SevenSegmentDisplay) : SevenSegmentDisplay :=
  {| segments := segments self; digits := digits self; dp := dp self;
     buffer := buffer self; dotmask := dotmask self;
     current_digit := (current_digit self + 1) `mod` Z.of_nat (ndigits self) |}.

(** [_refresh] *)
Definition _refresh (self : SevenSegmentDisplay) : option SevenSegmentDisplay :=
  s1 ← refresh_deselect self;
  s2 ← refresh_segments s1;
  s3 ← refresh_select s2;
  Some (refresh_advance s3).

(** The digits whose select line is at the ON level. *)
Definition lit (self : SevenSegmentDisplay) : list nat :=
  filter (fun i => digits self !! i = Some DIGIT_ON) (seq 0 (ndigits self)).

(** What can happen to the instance once it is built: the three public
    methods called from the control loop, and the timer calling [_refresh]. *)
Inductive Call : Type :=
| CallClear
| CallWrite (text : Py.value)
| CallSetDecimalPoint (position : Z) (state : bool)
| CallRefresh.

(** The instance after a call.  A [write] that raises does so in
    [str(text)], before it has assigned anything: the instance is then as
    it was before the call, and the exception goes to the caller.  [None]
    is an index out of range in [_refresh]. *)
Definition call (k : Call) (self : SevenSegmentDisplay) : option SevenSegmentDisplay :=
  match k with
  | CallClear => Some (clear self)
  | CallWrite text =>
      match write self text with
      | Some self' => Some self'
      | None => Some self
      end
  | CallSetDecimalPoint position state => Some (set_decimal_point self position state)
  | CallRefresh => _refresh self
  end.

Fixpoint calls (ks : list Call) (self : SevenSegmentDisplay) : option SevenSegmentDisplay :=
  match ks with
  | [] => Some self
  | k :: ks' => self' ← call k self; calls ks' self'
  end.

(** The digits found lit after each [_refresh] among the calls [ks], in the
    order of the calls. *)
Fixpoint selections (ks : list Call) (self : SevenSegmentDisplay) : option (list nat) :=
  match ks with
  | [] => Some []
  | k :: ks' =>
      self' ← call k self;
      later ← selections ks' self';
      Some (match k with
            | CallRefresh => lit self' ++ later
            | _ => later
            end)
  end.

(** The number of [_refresh] invocations among the calls [ks]. *)
Fixpoint refreshes (ks : list Call) : nat :=
  match ks with
  | [] => O
  | CallRefresh :: ks' => S (refreshes ks')
  | _ :: ks' => refreshes ks'
  end.

(** The shape of the instance: seven segment pins, four digit pins, four
    cells and four dot flags, the cursor on one of the digits, and no digit
    lit other than the one before the cursor. *)
Definition well_formed (self : SevenSegmentDisplay) : Prop :=
  length (segments self) = 7%nat /\ length (digits self) = 4%nat /\
  length (buffer self) = 4%nat /\ length (dotmask self) = 4%nat /\
  0 <= current_digit self < 4 /\
  forall i : nat, digits self !! i = Some DIGIT_ON ->
    Z.of_nat i = (current_digit self - 1) `mod` 4.

End SevenSegment.

(** ** MicroPython's [time] module: millisecond ticks *)

Module Time.

(** [ticks_ms()] wraps around after [TICKS_PERIOD] milliseconds; the period
    is a power of two (2^30 on the RP2040 port). *)
Definition TICKS_PERIOD : Z := 2 ^ 30.

(** [ticks_ms()] when [clock] milliseconds have passed since power-up. *)
Definition ticks_ms (clock : Z) : Z := clock `mod` TICKS_PERIOD.

(** [ticks_add(ticks, delta)] *)
Definition ticks_add (ticks delta : Z) : Z := (ticks + delta) `mod` TICKS_PERIOD.

(** [ticks_diff(ticks1, ticks2)]: the signed difference, in
    [-TICKS_PERIOD/2, TICKS_PERIOD/2). *)
Definition ticks_diff (ticks1 ticks2 : Z) : Z :=
  (ticks1 - ticks2 + TICKS_PERIOD `div` 2) `mod` TICKS_PERIOD - TICKS_PERIOD `div` 2.

End Time.

(** ** [main.py] *)

Module Main.

Import SevenSegment.

(** An RGB colour tuple as passed to [update_led]. *)
Definition Color : Type := (Z * Z * Z)%type.

(** The melodies [jingle_selection] binds to the three globals. *)
Inductive Jingle : Type := intro_jingle | work_jingle | rest_jingle.

(** The module-level objects and the world around them: the display driver
    instance, the arguments of the [update_led] calls and of the
    [play_jingle] calls made so far (latest first), and the milliseconds
    gone by since power-up. *)
Record Board : Type := mkBoard {
  display : SevenSegmentDisplay;
  led_calls : list Color;
  jingle_calls : list Jingle;
  clock : Z
}.

(** What the loops read from the outside in one pass: the time gone by
    before the pass reads the clock, and the levels [Pin.value()] returns
    for the four buttons (pull-ups: 1 released, 0 pressed). *)
Record Sample : Type := mkSample {
  elapsed : N;
  btn_up : Z;
  btn_down : Z;
  btn_confirm : Z;
  btn_reset : Z
}.

(** Python's [not v] on an integer. *)
Definition not_ (v : Z) : bool := v =? 0.

(** Time going by: [time.sleep_ms(ms)], and the time a pass takes. *)
Definition sleep_ms (ms : Z) (b : Board) : Board :=
  {| display := display b; led_calls := led_calls b;
     jingle_calls := jingle_calls b; clock := clock b + ms |}.

Definition pass (x : Sample) (b : Board) : Board := sleep_ms (Z.of_N (elapsed x)) b.

(** [update_led(color_tuple)] *)
Definition update_led (color_tuple : Color) (b : Board) : Board :=
  {| display := display b; led_calls := color_tuple :: led_calls b;
     jingle_calls := jingle_calls b; clock := clock b |}.

(** [play_jingle(jingle)]: starts the thread that plays it. *)
Definition play_jingle (jingle : Jingle) (b : Board) : Board :=
  {| display := display b; led_calls := led_calls b;
     jingle_calls := jingle :: jingle_calls b; clock := clock b |}.

(** [display.write(text)] and [display.clear()] on the module's instance.
    The firmware writes strings only, and [str] of a string is the string. *)
Definition display_write (text : string) (b : Board) : Board :=
  {| display := write_str (display b) text; led_calls := led_calls b;
     jingle_calls := jingle_calls b; clock := clock b |}.

Definition display_clear (b : Board) : Board :=
  {| display := clear (display b); led_calls := led_calls b;
     jingle_calls := jingle_calls b; clock := clock b |}.

(** *** [countdown] *)

(** Where control stands between two passes of [countdown]. *)
Inductive Loc : Type :=
| AtTick      (** head of [while seconds >= 0] *)
| Polling     (** head of [while ticks_diff(end_time, ticks_ms()) > 0] *)
| Blinking    (** head of [while paused_flag[0]] *)
| Done        (** [countdown] has returned *)
| Restart.    (** [main()] has been entered from the reset check *)

(** The arguments and locals of one call of [countdown].  [frame] and
    [end_time] are unbound until the first pass assigns them. *)
Record Countdown : Type := mkCountdown {
  seconds : Z;
  paused_flag : bool;
  led_color_full : Color;
  led_color_last_min : option Color;
  color_changed : bool;
  frame : string;
  end_time : Z;
  loc : Loc;
  board : Board
}.

(** The frame of the f-string [f"{m:02}{s:02}"]. *)
Definition mmss (seconds : Z) : string :=
  let m := seconds `div` 60 in
  let s := seconds `mod` 60 in
  (Py.format_02 m ++ Py.format_02 s)%string.

(** The call [countdown(seconds, paused_flag, led_color_full, led_color_last_min)]. *)
Definition countdown (seconds : Z) (paused_flag : bool) (led_color_full : Color)
    (led_color_last_min : option Color) (b : Board) : Countdown :=
  {| seconds := seconds; paused_flag := paused_flag;
     led_color_full := led_color_full; led_color_last_min := led_color_last_min;
     color_changed := false; frame := ""; end_time := 0;
     loc := AtTick; board := b |}.

(** The guarded LED change at the top of the outer loop:
    [if led_color_last_min and seconds == 60 and not color_changed]. *)
Definition last_minute (c : Countdown) (b : Board) : Board * bool :=
  match led_color_last_min c with
  | Some colour =>
      if (seconds c =? 60) && negb (color_changed c)
      then (update_led colour b, true)
      else (b, color_changed c)
  | None => (b, color_changed c)
  end.

(** One pass of [countdown]: the time [elapsed x] goes by, then control
    runs from the loop head at [loc c] to the next loop head. *)
Definition countdown_step (x : Sample) (c : Countdown) : Countdown :=
  let b := pass x (board c) in
  match loc c with
  | AtTick =>
      if seconds c >=? 0 then
        (* change LED to the last-minute colour when only 60s are left *)
        let '(b1, color_changed') := last_minute c b in
        let frame' := mmss (seconds c) in
        let b2 := display_write frame' b1 in
        let end_time' := Time.ticks_add (Time.ticks_ms (clock b2)) 1000 in
        {| seconds := seconds c; paused_flag := paused_flag c;
           led_color_full := led_color_full c;
           led_color_last_min := led_color_last_min c;
           color_changed := color_changed'; frame := frame';
           end_time := end_time'; loc := Polling; board := b2 |}
      else
        {| seconds := seconds c; paused_flag := paused_flag c;
           led_color_full := led_color_full c;
           led_color_last_min := led_color_last_min c;
           color_changed := color_changed c; frame := frame c;
           end_time := end_time c; loc := Done; board := b |}
  | Polling =>
      if Time.ticks_diff (end_time c) (Time.ticks_ms (clock b)) >? 0 then
        (* pause toggle *)
        let b1 := if not_ (btn_confirm x) then sleep_ms 300 b else b in
        let paused' := if not_ (btn_confirm x) then negb (paused_flag c)
                       else paused_flag c in
        (* reset button restarts main() *)
        let loc' := if not_ (btn_reset x) then Restart else Blinking in
        {| seconds := seconds c; paused_flag := paused';
           led_color_full := led_color_full c;
           led_color_last_min := led_color_last_min c;
           color_changed := color_changed c; frame := frame c;
           end_time := end_time c; loc := loc'; board := b1 |}
      else
        (* move to next second *)
        {| seconds := seconds c - 1; paused_flag := paused_flag c;
           led_color_full := led_color_full c;
           led_color_last_min := led_color_last_min c;
           color_changed := color_changed c; frame := frame c;
           end_time := end_time c; loc := AtTick; board := b |}
  | Blinking =>
      if paused_flag c then
        let now := Time.ticks_ms (clock b) in
        let blink_on := (now `div` 500) `mod` 2 =? 0 in
        if not_ (btn_confirm x) then
          {| seconds := seconds c; paused_flag := false;
             led_color_full := led_color_full c;
             led_color_last_min := led_color_last_min c;
             color_changed := color_changed c; frame := frame c;
             end_time := end_time c; loc := Polling;
             board := sleep_ms 300 b |}
        else
          let b1 := if blink_on then display_write (frame c) b
                    else display_clear b in
          {| seconds := seconds c; paused_flag := paused_flag c;
             led_color_full := led_color_full c;
             led_color_last_min := led_color_last_min c;
             color_changed := color_changed c; frame := frame c;
             end_time := end_time c; loc := Blinking;
             board := sleep_ms 50 b1 |}
      else
        {| seconds := seconds c; paused_flag := paused_flag c;
           led_color_full := led_color_full c;
           led_color_last_min := led_color_last_min c;
           color_changed := color_changed c; frame := frame c;
           end_time := end_time c; loc := Polling; board := b |}
  | Done => c
  | Restart => c
  end.

(** Running [countdown] over the passes of a list of samples. *)
Definition countdown_run (xs : list Sample) (c : Countdown) : Countdown :=
  foldl (fun c x => countdown_step x c) c xs.

(** *** [set_times] *)

Inductive Button : Type := Up | Down | Confirm.

(** The locals of [set_times]. *)
Record SetTimes : Type := mkSetTimes {
  study : Z;
  rest : Z;
  idx : Z;
  last : Z;
  st_board : Board
}.

(** [debounce = 500]: the debounce time in ms; never assigned again. *)
Definition debounce : Z := 500.

(** [set_times()] up to the head of its loop. *)
Definition set_times (b : Board) : SetTimes :=
  {| study := 25; rest := 5; idx := 0;
     last := Time.ticks_ms (clock b); st_board := b |}.

(** The three guarded button branches of the loop body.  Each returns the
    locals after it and whether its branch was taken. *)
Definition on_up (x : Sample) (now : Z) (s : SetTimes) : SetTimes * bool :=
  if not_ (btn_up x) && (Time.ticks_diff now (last s) >? debounce) then
    ({| study := if idx s =? 0 then Z.min (study s + 5) 95 else study s;
        rest := if idx s =? 0 then rest s else Z.min (rest s + 5) 95;
        idx := idx s; last := now;
        st_board := st_board s |}, true)
  else (s, false).

Definition on_down (x : Sample) (now : Z) (s : SetTimes) : SetTimes * bool :=
  if not_ (btn_down x) && (Time.ticks_diff now (last s) >? debounce) then
    ({| study := if idx s =? 0 then Z.max (study s - 5) 0 else study s;
        rest := if idx s =? 0 then rest s else Z.max (rest s - 5) 0;
        idx := idx s; last := now;
        st_board := st_board s |}, true)
  else (s, false).

Definition on_confirm (x : Sample) (now : Z) (s : SetTimes) : SetTimes * bool :=
  if not_ (btn_confirm x) && (Time.ticks_diff now (last s) >? debounce) then
    ({| study := study s; rest := rest s;
        idx := idx s + 1; last := now;
        st_board := st_board s |}, true)
  else (s, false).

(** The frame shown while editing: the field in focus is hidden while
    [blink_on] is false. *)
Definition edit_frame (s : SetTimes) (now : Z) : string :=
  let frame := (Py.format_02 (study s) ++ Py.format_02 (rest s))%string in
  let blink_on := (now `div` 500) `mod` 2 =? 0 in
  if (idx s =? 0) && negb blink_on then ("  " ++ Py.slice_from 2 frame)%string
  else if (idx s =? 1) && negb blink_on then (Py.slice_to 2 frame ++ "  ")%string
  else frame.

(** One pass of the loop [while idx < 2], with the buttons whose press it
    accepted, in the order of the checks. *)
Definition set_times_pass (x : Sample) (s : SetTimes) : SetTimes * list Button :=
  if idx s <? 2 then
    let b := pass x (st_board s) in
    let now := Time.ticks_ms (clock b) in
    let b1 := display_write (edit_frame s now) b in
    let s0 := {| study := study s; rest := rest s; idx := idx s;
                 last := last s; st_board := b1 |} in
    let '(s1, up) := on_up x now s0 in
    let '(s2, down) := on_down x now s1 in
    let '(s3, confirm) := on_confirm x now s2 in
    ({| study := study s3; rest := rest s3; idx := idx s3;
        last := last s3;
        st_board := sleep_ms 40 (st_board s3) |},
     ((if up then [Up] else []) ++ (if down then [Down] else [])
        ++ (if confirm then [Confirm] else []))%list)
  else (s, []).

Definition set_times_step (x : Sample) (s : SetTimes) : SetTimes :=
  fst (set_times_pass x s).

(** The accepted presses of a run of passes, pass by pass. *)
Fixpoint set_times_events (xs : list Sample) (s : SetTimes) : list (list Button) :=
  match xs with
  | [] => []
  | x :: xs' => snd (set_times_pass x s) :: set_times_events xs' (set_times_step x s)
  end.

Definition set_times_run (xs : list Sample) (s : SetTimes) : SetTimes :=
  foldl (fun s x => set_times_step x s) s xs.

(** Whether a button reads pressed in a sample, and the first pressed
    button in the order of the checks (up, down, confirm), if any. *)
Definition pressed (b : Button) (x : Sample) : bool :=
  match b with
  | Up => not_ (btn_up x)
  | Down => not_ (btn_down x)
  | Confirm => not_ (btn_confirm x)
  end.

Definition first_pressed (x : Sample) : list Button :=
  if not_ (btn_up x) then [Up]
  else if not_ (btn_down x) then [Down]
  else if not_ (btn_confirm x) then [Confirm]
  else [].

(** The value [set_times] returns once [idx] has reached 2. *)
Definition set_times_result (s : SetTimes) : option (Z * Z) :=
  if idx s <? 2 then None else Some (study s * 60, rest s * 60).

(** *** [main] *)

(** Where [main] stands: in [set_times], or in the work or the rest
    [countdown] of its endless loop, with [study_secs] and [rest_secs]. *)
Inductive Phase : Type :=
| Configuring (s : SetTimes)
| Working (study_secs rest_secs : Z) (c : Countdown)
| Resting (study_secs rest_secs : Z) (c : Countdown).

(** The running program: the phase of the innermost call of [main], and
    how many calls of [main] lie suspended beneath it (every reset enters
    [main] anew from inside [countdown], and [main] never returns).  How
    many calls the interpreter's stack holds is not in the source, and the
    count is left unbounded here. *)
Record Program : Type := mkProgram {
  phase : Phase;
  nested : nat
}.

(** Entering [main()]: purple LED, intro jingle, then [set_times]. *)
Definition main (b : Board) (nested : nat) : Program :=
  let b1 := update_led (35, 91, 121) b in
  let b2 := play_jingle intro_jingle b1 in
  {| phase := Configuring (set_times b2); nested := nested |}.

(** The work session of the loop, entered with the shared [paused] cell. *)
Definition work_session (study_secs rest_secs : Z) (paused : bool) (b : Board) : Phase :=
  let b1 := update_led (0, 255, 0) b in
  let b2 := play_jingle work_jingle b1 in
  let b3 := sleep_ms 300 b2 in
  Working study_secs rest_secs
    (countdown study_secs paused (0, 255, 0) (Some (255, 255, 0)) b3).

(** The rest session of the loop. *)
Definition rest_session (study_secs rest_secs : Z) (paused : bool) (b : Board) : Phase :=
  let b1 := update_led (255, 0, 0) b in
  let b2 := play_jingle rest_jingle b1 in
  Resting study_secs rest_secs
    (countdown rest_secs paused (255, 0, 0) (Some (255, 255, 0)) b2).

(** One pass of the program. *)
Definition main_step (x : Sample) (p : Program) : Program :=
  match phase p with
  | Configuring s =>
      match set_times_result s with
      | None => {| phase := Configuring (set_times_step x s); nested := nested p |}
      | Some (study_secs, rest_secs) =>
          (* paused = [False] *)
          {| phase := work_session study_secs rest_secs false (st_board s);
             nested := nested p |}
      end
  | Working study_secs rest_secs c =>
      match loc c with
      | Done =>
          {| phase := rest_session study_secs rest_secs (paused_flag c) (board c);
             nested := nested p |}
      | Restart => main (board c) (S (nested p))
      | _ => {| phase := Working study_secs rest_secs (countdown_step x c);
                nested := nested p |}
      end
  | Resting study_secs rest_secs c =>
      match loc c with
      | Done =>
          {| phase := work_session study_secs rest_secs (paused_flag c) (board c);
             nested := nested p |}
      | Restart => main (board c) (S (nested p))
      | _ => {| phase := Resting study_secs rest_secs (countdown_step x c);
                nested := nested p |}
      end
  end.

Definition main_run (xs : list Sample) (p : Program) : Program :=
  foldl (fun p x => main_step x p) p xs.

(** The board at power-up, and the program started on it. *)
Definition power_up : Board :=
  {| display := SevenSegment.init; led_calls := []; jingle_calls := []; clock := 0 |}.

(** Samples: nothing pressed, or one button held, after [ms] milliseconds. *)
Definition idle (ms : N) : Sample :=
  {| elapsed := ms; btn_up := 1; btn_down := 1; btn_confirm := 1; btn_reset := 1 |}.
Definition press_up (ms : N) : Sample :=
  {| elapsed := ms; btn_up := 0; btn_down := 1; btn_confirm := 1; btn_reset := 1 |}.
Definition press_down (ms : N) : Sample :=
  {| elapsed := ms; btn_up := 1; btn_down := 0; btn_confirm := 1; btn_reset := 1 |}.
Definition press_confirm (ms : N) : Sample :=
  {| elapsed := ms; btn_up := 1; btn_down := 1; btn_confirm := 0; btn_reset := 1 |}.
Definition press_reset (ms : N) : Sample :=
  {| elapsed := ms; btn_up := 1; btn_down := 1; btn_confirm := 1; btn_reset := 0 |}.

(** Whether the pass that opens the tick at 60 seconds has been made. *)
Definition last_minute_begun (c : Countdown) : bool :=
  (seconds c <? 60)
  || ((seconds c =? 60) && negb (match loc c with AtTick => true | _ => false end)).

(** The passes of a tick during which nothing is pressed and the clock is
    read exactly at the deadline; [n] such ticks, and the pass after them. *)
Definition quiet_tick : list Sample := [idle 0; idle 1000].

Definition quiet_ticks (n : nat) : list Sample :=
  concat (replicate n quiet_tick).

(** The countdown is between the start of a tick and its end. *)
Definition in_tick (c : Countdown) : Prop :=
  loc c = Polling \/ loc c = Blinking.

(** The countdown is in the PAUSED state: in the blink loop with the flag set. *)
Definition is_paused (c : Countdown) : Prop :=
  loc c = Blinking /\ paused_flag c = true.

End Main.

(** ** The specification's own definitions, for comparison with the code *)

Module Spec.

Import Main.

(** The decimal digit character of [n], for [0 <= n < 10]. *)
Definition digit (n : Z) : ascii := ascii_of_nat (48 + Z.to_nat n).

(** [zero_pad(n, 2)] for a number below 100: its tens digit, then its units
    digit. *)
Definition zero_pad2 (n : Z) : string :=
  String (digit (n `div` 10)) (String (digit (n `mod` 10)) EmptyString).

(** ButtonDebounceState, one per button: each button has a
    [last_edge_time] of its own. *)
Record PerButton : Type := mkPerButton {
  last_edge_up : Z;
  last_edge_down : Z;
  last_edge_confirm : Z
}.

(** An edge is accepted if the button is pressed and
    [now - last_edge_time > debounce_window]. *)
Definition accepts (level now last_edge_time : Z) : bool :=
  not_ level && (Time.ticks_diff now last_edge_time >? debounce).

(** One poll of the three buttons, each against its own state; accepting an
    edge updates that button's [last_edge_time]. *)
Definition poll (x : Sample) (now : Z) (s : PerButton) : PerButton * list Button :=
  let up := accepts (btn_up x) now (last_edge_up s) in
  let down := accepts (btn_down x) now (last_edge_down s) in
  let confirm := accepts (btn_confirm x) now (last_edge_confirm s) in
  ({| last_edge_up := if up then now else last_edge_up s;
      last_edge_down := if down then now else last_edge_down s;
      last_edge_confirm := if confirm then now else last_edge_confirm s |},
   (if up then [Up] else []) ++ (if down then [Down] else [])
     ++ (if confirm then [Confirm] else [])).

(** The edges accepted pass by pass when the configuration loop, started at
    time [clock], polls once per pass and then sleeps 40 ms. *)
Fixpoint per_button_events (xs : list Sample) (clock : Z) (s : PerButton)
  : list (list Button) :=
  match xs with
  | [] => []
  | x :: xs' =>
      let now := Time.ticks_ms (clock + Z.of_N (elapsed x)) in
      let '(s', accepted) := poll x now s in
      accepted :: per_button_events xs' (clock + Z.of_N (elapsed x) + 40) s'
  end.

(** The claim of per-button debouncing: on every run of the configuration
    loop the code accepts exactly the edges the per-button states accept. *)
Definition debounced_per_button : Prop :=
  forall (xs : list Sample) (b : Board),
    set_times_events xs (set_times b)
    = per_button_events xs (clock b)
        {| last_edge_up := Time.ticks_ms (clock b);
           last_edge_down := Time.ticks_ms (clock b);
           last_edge_confirm := Time.ticks_ms (clock b) |}.

(** The claim of drift-free ticks: the deadline of a tick is the deadline
    of the tick before it plus the fixed interval. *)
Definition deadline_from_previous (before after : Countdown) : Prop :=
  end_time after = Time.ticks_add (end_time before) 1000.

End Spec.


(** ** The configuration seen through the accepted presses *)

Module Edit.

Import Main.

(** The study minutes, the rest minutes and the field in focus. *)
Definition settings (s : SetTimes) : Z * Z * Z := (study s, rest s, idx s).

(** What the branch of an accepted press does to the settings: up and down
    step the field in focus by 5 within [0, 95], confirm moves the focus. *)
Definition edit (v : Z * Z * Z) (b : Button) : Z * Z * Z :=
  let '(study, rest, idx) := v in
  match b with
  | Up => if idx =? 0 then (Z.min (study + 5) 95, rest, idx)
          else (study, Z.min (rest + 5) 95, idx)
  | Down => if idx =? 0 then (Z.max (study - 5) 0, rest, idx)
            else (study, Z.max (rest - 5) 0, idx)
  | Confirm => (study, rest, idx + 1)
  end.

End Edit.

(** ** Whole sessions of [main] *)

Module Session.

Import Main.

(** What [set_times] keeps of its locals: minutes on the 5-minute grid
    within [0, 95], and the field index within [0, 2]. *)
Definition settings_ok (s : SetTimes) : Prop :=
  (0 <= study s <= 95 /\ (5 | study s)) /\ (0 <= rest s <= 95 /\ (5 | rest s)) /\
  0 <= idx s <= 2.

(** What a countdown called by [main] for [duration] seconds keeps. *)
Definition countdown_ok (duration : Z) (c : Countdown) : Prop :=
  0 <= duration <= 5700 /\
  -1 <= seconds c <= duration /\
  (loc c = Done -> seconds c = -1) /\
  (in_tick c \/ loc c = Restart -> 0 <= seconds c /\ frame c = mmss (seconds c)) /\
  (paused_flag c = true -> loc c = Blinking \/ loc c = Restart).

(** What the program keeps in each of its phases. *)
Definition program_ok (p : Program) : Prop :=
  match phase p with
  | Configuring s => settings_ok s
  | Working study_secs rest_secs c =>
      0 <= rest_secs <= 5700 /\ countdown_ok study_secs c
  | Resting study_secs rest_secs c =>
      0 <= study_secs <= 5700 /\ countdown_ok rest_secs c
  end.

(** The passes of a round in which nothing is pressed and every tick is
    polled exactly at its deadline: the work countdown, its return and the
    start of the rest session, the rest countdown, its return and the start
    of the next work session. *)
Definition quiet_phase (duration : Z) : list Sample :=
  quiet_ticks (Z.to_nat (duration + 1)) ++ [idle 0; idle 0].

Definition quiet_round (study_secs rest_secs : Z) : list Sample :=
  quiet_phase study_secs ++ quiet_phase rest_secs.

(** Whether a pass of [countdown] evaluates [btn_confirm.value()]: the wait
    loop does when its condition holds, the blink loop when the pause flag
    is set; the pass that opens a tick reads no button. *)
Definition reads_confirm (x : Sample) (c : Countdown) : bool :=
  match loc c with
  | Polling =>
      Time.ticks_diff (end_time c) (Time.ticks_ms (clock (pass x (board c)))) >? 0
  | Blinking => paused_flag c
  | _ => false
  end.

(** No pass of the run reads the confirm button pressed. *)
Fixpoint confirm_never_read_pressed (xs : list Sample) (c : Countdown) : bool :=
  match xs with
  | [] => true
  | x :: xs' =>
      negb (reads_confirm x c && not_ (btn_confirm x))
      && confirm_never_read_pressed xs' (countdown_step x c)
  end.

(** Whether a pass of the program evaluates [btn_reset.value()]: only the
    wait loop of a countdown does, when its condition holds; [set_times]
    and the blink loop do not read the reset button. *)
Definition reads_reset (x : Sample) (p : Program) : bool :=
  match phase p with
  | Configuring _ => false
  | Working _ _ c | Resting _ _ c =>
      match loc c with
      | Polling =>
          Time.ticks_diff (end_time c) (Time.ticks_ms (clock (pass x (board c)))) >? 0
      | _ => false
      end
  end.

(** No pass of the run reads the reset button pressed. *)
Fixpoint reset_never_read_pressed (xs : list Sample) (p : Program) : bool :=
  match xs with
  | [] => true
  | x :: xs' =>
      negb (reads_reset x p && not_ (btn_reset x))
      && reset_never_read_pressed xs' (main_step x p)
  end.

End Session.

(** ** The thread that plays a jingle *)

Module JingleThread.

Section Jingle.

(** The [music] object of the [buzzer_music] module: its state, its
    [tick()], which returns whether there is more to play, and its
    [restart()]. *)
Variable music : Type.
Variable tick : music -> bool * music.
Variable restart : music -> music.

(** The loop [while result: result = jingle.tick(); time.sleep(0.04)],
    entered with [result = True]: the jingle after it and the milliseconds
    slept, or [None] when [fuel] iterations do not end it. *)
Fixpoint play_loop (fuel : nat) (jingle : music) (slept : Z) : option (music * Z) :=
  match fuel with
  | O => None
  | S fuel' =>
      let '(result, jingle') := tick jingle in
      let slept' := slept + 40 in
      if result then play_loop fuel' jingle' slept' else Some (jingle', slept')
  end.

(** [_play_jingle_thread(jingle)] *)
Definition _play_jingle_thread (fuel : nat) (jingle : music) : option (music * Z) :=
  match play_loop fuel jingle 0 with
  | Some (jingle', slept) => Some (restart jingle', slept)
  | None => None
  end.

(** The jingle after [n] calls of [tick()], and the result of the last. *)
Fixpoint after_ticks (n : nat) (jingle : music) : music :=
  match n with
  | O => jingle
  | S n' => after_ticks n' (snd (tick jingle))
  end.

Definition result_of_tick (n : nat) (jingle : music) : bool :=
  fst (tick (after_ticks n jingle)).

End Jingle.

End JingleThread.
(** ** Properties of the display driver *)

Module SevenSegmentFacts.

Import SevenSegment.

(** Case analysis over the four digit pins and the four cursor positions. *)
Ltac lit_absurd :=
  exfalso; simpl in *;
  repeat match goal with
         | H : ?P, H' : ?P -> _ |- _ => specialize (H' H)
         end;
  match goal with
  | H : Z.of_nat _ = _ |- _ => vm_compute in H; discriminate
  | H : Some DIGIT_OFF = Some DIGIT_ON |- _ => discriminate
  | H : Some DIGIT_ON <> Some DIGIT_ON |- _ => by destruct H
  end.

Ltac lit_cases :=
  unfold lit, ndigits; simpl;
  rewrite ?filter_cons, ?filter_nil;
  repeat case_decide; simplify_eq; try done; try lit_absurd.

Lemma length_list_of_str (s : string) :
  length (Py.list_of_str s) = String.length s.
Proof. unfold Py.list_of_str. induction s as [|a s IH]; simpl; [done | by rewrite IH]. Qed.

Lemma list_of_str_append (s t : string) :
  Py.list_of_str (s ++ t)%string = Py.list_of_str s ++ Py.list_of_str t.
Proof. unfold Py.list_of_str. induction s as [|a s IH]; simpl; [done | by rewrite IH]. Qed.

Lemma list_of_str_spaces (k : nat) :
  Py.list_of_str (Py.str_mul " " k) = replicate k " "%char.
Proof.
  induction k as [|k IH]; [done |].
  change (Py.str_mul " " (S k)) with (" " ++ Py.str_mul " " k)%string.
  rewrite list_of_str_append, IH. done.
Qed.

Lemma list_of_str_slice_to (n : nat) (s : string) :
  Py.list_of_str (Py.slice_to n s) = take n (Py.list_of_str s).
Proof.
  unfold Py.slice_to, Py.list_of_str. revert n.
  induction s as [|a s IH]; intros [|n]; simpl; try done.
  by rewrite IH.
Qed.

(** What [write] stores, as a list: the first [n] characters of the text,
    then the blanks that are missing to [n]. *)
Lemma list_of_str_fit (n : nat) (text : string) :
  Py.list_of_str (fit n text)
  = take n (Py.list_of_str text)
    ++ replicate (n - String.length text) " "%char.
Proof.
  unfold fit.
  pose proof (length_list_of_str text) as Hlen.
  destruct (Nat.ltb_spec (String.length text) n) as [Hlt|Hge].
  - rewrite list_of_str_append, list_of_str_spaces.
    rewrite take_ge by lia. done.
  - destruct (Nat.ltb_spec n (String.length text)) as [Hgt|Hle].
    + rewrite list_of_str_slice_to.
      replace (n - String.length text)%nat with O by lia.
      simpl. by rewrite app_nil_r.
    + replace (n - String.length text)%nat with O by lia.
      rewrite take_ge by lia. simpl. by rewrite app_nil_r.
Qed.

Lemma length_fit (n : nat) (text : string) :
  length (Py.list_of_str (fit n text)) = n.
Proof.
  rewrite list_of_str_fit, length_app, length_take, length_replicate.
  rewrite length_list_of_str. lia.
Qed.

(** A lookup with a default yields an entry of the dict or the default. *)
Lemma dict_get_all {V : Type} (P : V -> Prop) (d : list (ascii * V)) (ch : ascii)
    (default : V) :
  Forall (fun kv => P (snd kv)) d -> P default -> P (dict_get d ch default).
Proof.
  intros Hd Hdef. induction Hd as [|[k v] d Hv _ IH]; simpl; [done |].
  destruct (Ascii.eqb k ch); [exact Hv | exact IH].
Qed.

Local Arguments dict_get : simpl never.

(** Every pattern of the table, and the blank default, has seven entries. *)
Lemma length_pattern (ch : ascii) :
  length (dict_get patterns ch (dict_get patterns " "%char [])) = 7%nat.
Proof.
  apply dict_get_all; [| reflexivity].
  unfold patterns. repeat (constructor; [reflexivity |]). constructor.
Qed.

Lemma init_well_formed : well_formed init.
Proof.
  unfold well_formed. simpl. repeat split; try lia.
  intros [|[|[|[|i]]]] Hi; vm_compute in Hi; discriminate.
Qed.

Lemma mapM_total {A B : Type} (f : A -> option B) (l : list A) :
  Forall (fun a => is_Some (f a)) l ->
  exists l', mapM f l = Some l' /\ length l' = length l.
Proof.
  induction 1 as [|a l [b Hb] _ [l' [Hl' Hlen]]]; simpl.
  - by exists [].
  - exists (b :: l'). rewrite Hb. simpl. rewrite Hl'. simpl.
    split; [done | by rewrite Hlen].
Qed.

Lemma four_pins {A : Type} (l : list A) :
  length l = 4%nat -> exists a b c d, l = [a; b; c; d].
Proof. destruct l as [|a [|b [|c [|d [|]]]]]; try done. eauto. Qed.

(** Step 1 leaves no digit lit. *)
Lemma refresh_deselect_ok (self : SevenSegmentDisplay) :
  well_formed self ->
  exists s1, refresh_deselect self = Some s1 /\ lit s1 = [] /\
    buffer s1 = buffer self /\ dotmask s1 = dotmask self /\
    segments s1 = segments self /\ current_digit s1 = current_digit self /\
    length (digits s1) = 4%nat.
Proof.
  intros (Hs & Hd & Hb & Hm & Hc & Hlit).
  destruct self as [segs digs dp buf dots cur]; simpl in *.
  destruct (four_pins _ Hd) as (a & b & c & d & ->).
  pose proof (Hlit 0%nat) as H0. pose proof (Hlit 1%nat) as H1.
  pose proof (Hlit 2%nat) as H2. pose proof (Hlit 3%nat) as H3.
  assert (cur = 0 \/ cur = 1 \/ cur = 2 \/ cur = 3) as [-> | [-> | [-> | ->]]] by lia.
  all: eexists; split; [reflexivity |]; simpl; repeat split; try done.
  all: lit_cases.
Qed.

(** Steps 2 to 4 cannot fail and leave the digit pins alone. *)
Lemma refresh_segments_ok (self : SevenSegmentDisplay) :
  length (segments self) = 7%nat -> length (buffer self) = 4%nat ->
  length (dotmask self) = 4%nat -> 0 <= current_digit self < 4 ->
  exists s2, refresh_segments self = Some s2 /\ digits s2 = digits self /\
    buffer s2 = buffer self /\ dotmask s2 = dotmask self /\
    length (segments s2) = 7%nat /\ current_digit s2 = current_digit self.
Proof.
  intros Hs Hb Hm Hc. unfold refresh_segments, index.
  destruct (Z.ltb_spec (current_digit self) 0) as [?|_]; [lia |].
  destruct (lookup_lt_is_Some_2 (buffer self) (Z.to_nat (current_digit self)))
    as [ch Hch]; [lia |].
  destruct (lookup_lt_is_Some_2 (dotmask self) (Z.to_nat (current_digit self)))
    as [dot Hdot]; [lia |].
  rewrite Hch. simpl.
  pose proof (length_pattern ch) as Hpat.
  set (pattern := dict_get patterns ch (dict_get patterns " "%char [])) in *.
  clearbody pattern.
  edestruct (mapM_total
               (fun i : nat => bit ← pattern !! i;
                               Some (if bit =? 0 then SEGMENT_OFF else SEGMENT_ON))
               (seq 0 (length (segments self)))) as (segs' & Hsegs & Hlen).
  { apply Forall_forall. intros i Hi. apply elem_of_seq in Hi.
    destruct (lookup_lt_is_Some_2 pattern i) as [bit Hbit]; [lia |].
    rewrite Hbit. simpl. eauto. }
  rewrite Hsegs. simpl. rewrite Hdot. simpl.
  eexists; split; [reflexivity |]. simpl.
  rewrite Hlen, length_seq. done.
Qed.

(** Step 5 lights the digit under the cursor, and only that one. *)
Lemma refresh_select_ok (self : SevenSegmentDisplay) :
  length (digits self) = 4%nat -> 0 <= current_digit self < 4 -> lit self = [] ->
  exists s3, refresh_select self = Some s3 /\
    lit s3 = [Z.to_nat (current_digit self)] /\
    buffer s3 = buffer self /\ dotmask s3 = dotmask self /\
    segments s3 = segments self /\ current_digit s3 = current_digit self /\
    length (digits s3) = 4%nat /\
    forall i : nat, digits s3 !! i = Some DIGIT_ON -> Z.of_nat i = current_digit self.
Proof.
  intros Hd Hc Hlit.
  destruct self as [segs digs dp buf dots cur]; simpl in *.
  destruct (four_pins _ Hd) as (a & b & c & d & ->).
  revert Hlit. unfold lit, ndigits. simpl. rewrite ?filter_cons, ?filter_nil.
  repeat case_decide; try done. intros _.
  assert (cur = 0 \/ cur = 1 \/ cur = 2 \/ cur = 3) as [-> | [-> | [-> | ->]]] by lia.
  all: eexists; split; [reflexivity |]; simpl; repeat split; try done.
  all: try (unfold lit, ndigits; simpl; rewrite ?filter_cons, ?filter_nil;
            repeat case_decide; simplify_eq; done).
  all: intros [|[|[|[|i]]]] Hi; simpl in *; try done; simplify_eq.
Qed.

(** One invocation of [_refresh] from a well-formed instance. *)
Lemma refresh_ok (self : SevenSegmentDisplay) :
  well_formed self ->
  exists s1 s2 s3,
    refresh_deselect self = Some s1 /\ refresh_segments s1 = Some s2 /\
    refresh_select s2 = Some s3 /\ _refresh self = Some (refresh_advance s3) /\
    lit s1 = [] /\ lit s2 = [] /\ lit s3 = [Z.to_nat (current_digit self)] /\
    lit (refresh_advance s3) = [Z.to_nat (current_digit self)] /\
    current_digit (refresh_advance s3) = (current_digit self + 1) `mod` 4 /\
    well_formed (refresh_advance s3).
Proof.
  intros Hwf.
  destruct (refresh_deselect_ok self Hwf)
    as (s1 & E1 & L1 & B1 & M1 & S1 & C1 & D1).
  destruct Hwf as (Hs & Hd & Hb & Hm & Hc & Hlit).
  destruct (refresh_segments_ok s1) as (s2 & E2 & D2 & B2 & M2 & S2 & C2);
    [congruence .. | |]; [lia |].
  destruct (refresh_select_ok s2) as (s3 & E3 & L3 & B3 & M3 & S3 & C3 & D3 & O3);
    [congruence | lia | |].
  { unfold lit, ndigits in *. by rewrite D2. }
  exists s1, s2, s3. unfold _refresh. rewrite E1. simpl. rewrite E2. simpl.
  rewrite E3. simpl.
  assert (Hn : Z.of_nat (ndigits s3) = 4) by (unfold ndigits; lia).
  repeat split; try done.
  - unfold lit, ndigits in *. by rewrite D2.
  - congruence.
  - change (lit (refresh_advance s3)) with (lit s3). congruence.
  - unfold refresh_advance. simpl. rewrite Hn. congruence.
  - simpl. congruence.
  - simpl. congruence.
  - simpl. congruence.
  - simpl. rewrite Hn. apply Z.mod_pos_bound. lia.
  - simpl. rewrite Hn. apply Z.mod_pos_bound. lia.
  - simpl. intros i Hi. apply O3 in Hi. rewrite Hn, Hi, C3, C2, C1.
    assert (current_digit self = 0 \/ current_digit self = 1 \/
            current_digit self = 2 \/ current_digit self = 3)
      as [-> | [-> | [-> | ->]]] by lia; reflexivity.
Qed.

Lemma clear_well_formed (self : SevenSegmentDisplay) :
  well_formed self -> well_formed (clear self).
Proof.
  intros (Hs & Hd & Hb & Hm & Hc & Hlit). unfold well_formed, clear, ndigits.
  simpl. rewrite !length_replicate. done.
Qed.

Lemma write_str_well_formed (self : SevenSegmentDisplay) (text : string) :
  well_formed self -> well_formed (write_str self text).
Proof.
  intros (Hs & Hd & Hb & Hm & Hc & Hlit). unfold well_formed, write_str.
  simpl. rewrite length_fit. done.
Qed.

Lemma write_well_formed (self self' : SevenSegmentDisplay) (text : Py.value) :
  well_formed self -> write self text = Some self' -> well_formed self'.
Proof.
  intros Hwf. unfold write. destruct (Py.str text) as [t|]; simpl; [| done].
  intros [= <-]. by apply write_str_well_formed.
Qed.

Lemma set_decimal_point_well_formed (self : SevenSegmentDisplay) (position : Z)
    (state : bool) :
  well_formed self -> well_formed (set_decimal_point self position state).
Proof.
  intros Hwf. unfold set_decimal_point.
  destruct ((0 <=? position) && (position <? Z.of_nat (ndigits self))); [| done].
  destruct Hwf as (Hs & Hd & Hb & Hm & Hc & Hlit). unfold well_formed.
  simpl. rewrite length_insert. done.
Qed.

(** No call can fail on a well-formed instance, and it stays well formed. *)
Lemma call_well_formed (k : Call) (self : SevenSegmentDisplay) :
  well_formed self -> exists self', call k self = Some self' /\ well_formed self'.
Proof.
  intros Hwf. destruct k as [| text | position state |]; simpl.
  - eauto using clear_well_formed.
  - destruct (write self text) as [self'|] eqn:E; eauto using write_well_formed.
  - eauto using set_decimal_point_well_formed.
  - destruct (refresh_ok self Hwf) as (s1 & s2 & s3 & _ & _ & _ & E & _ & _ & _ & _ & _ & W).
    eauto.
Qed.

Lemma calls_well_formed (ks : list Call) (self self' : SevenSegmentDisplay) :
  well_formed self -> calls ks self = Some self' -> well_formed self'.
Proof.
  revert self. induction ks as [|k ks IH]; intros self Hwf; simpl.
  - intros [= <-]. done.
  - destruct (call_well_formed k self Hwf) as (s & -> & Hs). simpl. eauto.
Qed.

(** The calls that are not [_refresh] leave the pins and the cursor alone. *)
Lemma call_keeps_pins (k : Call) (self self' : SevenSegmentDisplay) :
  k <> CallRefresh -> call k self = Some self' ->
  digits self' = digits self /\ current_digit self' = current_digit self.
Proof.
  destruct k as [| text | position state |]; simpl; try done.
  - by intros _ [= <-].
  - unfold write. destruct (Py.str text); simpl; by intros _ [= <-].
  - intros _ [= <-]. unfold set_decimal_point.
    by destruct ((0 <=? position) && (position <? Z.of_nat (ndigits self))).
Qed.

Local Arguments refresh_advance : simpl never.
Local Arguments lit : simpl never.

(** The digits lit by the refreshes among any calls follow the cursor round. *)
Lemma selections_round (ks : list Call) (self : SevenSegmentDisplay) :
  well_formed self ->
  selections ks self
  = Some ((fun j : nat => Z.to_nat ((current_digit self + Z.of_nat j) `mod` 4))
            <$> seq 0 (refreshes ks)).
Proof.
  revert self. induction ks as [|k ks IH]; intros self Hwf; [done |].
  assert (Hother : k <> CallRefresh ->
            selections (k :: ks) self
            = Some ((fun j : nat => Z.to_nat ((current_digit self + Z.of_nat j) `mod` 4))
                      <$> seq 0 (refreshes (k :: ks)))).
  { intros Hk. destruct (call_well_formed k self Hwf) as (s & E & W).
    destruct (call_keeps_pins k self s Hk E) as (_ & C).
    simpl. rewrite E. simpl. rewrite (IH _ W). simpl. rewrite C.
    destruct k; done. }
  destruct k as [| text | position state |]; try (by apply Hother).
  clear Hother.
  destruct (refresh_ok self Hwf)
    as (s1 & s2 & s3 & _ & _ & _ & E & _ & _ & _ & L & C & W).
  set (s4 := refresh_advance s3) in *. clearbody s4.
  simpl. rewrite E. simpl. rewrite (IH _ W). simpl. rewrite L, C.
  f_equal. cbn [app]. f_equal.
  - destruct Hwf as (_ & _ & _ & _ & Hc & _).
    change (Z.of_nat 0) with 0. rewrite Z.add_0_r, Z.mod_small by lia. done.
  - change (list_fmap nat nat ?f ?l) with (f <$> l).
    rewrite <- fmap_S_seq, <- list_fmap_compose.
    apply list_fmap_ext. intros _ j _. simpl.
    rewrite Zplus_mod_idemp_l. f_equal. f_equal. lia.
Qed.

(** C5: from every state reached from [__init__] by calls of the public
    methods and of the timer callback, one invocation of [_refresh] turns
    every digit off, then lights the digit under the cursor and no other,
    and moves the cursor on by one modulo 4, so that it stays in [0, 4);
    no two digit-select lines are ever at the ON level together; and over
    any calls that hold four invocations of [_refresh], the digits lit by
    them are each of the four digits exactly once. *)
Theorem refresh_selects_each_digit_once (ks cycle : list Call)
    (self : SevenSegmentDisplay) :
  calls ks init = Some self ->
  refreshes cycle = 4%nat ->
  (exists s1 s2 s3,
      refresh_deselect self = Some s1 /\ refresh_segments s1 = Some s2 /\
      refresh_select s2 = Some s3 /\ _refresh self = Some (refresh_advance s3) /\
      lit s1 = [] /\ lit s2 = [] /\ lit s3 = [Z.to_nat (current_digit self)] /\
      lit (refresh_advance s3) = [Z.to_nat (current_digit self)] /\
      current_digit (refresh_advance s3) = (current_digit self + 1) `mod` 4) /\
  0 <= current_digit self < 4 /\
  (length (lit self) <= 1)%nat /\
  exists selected, selections cycle self = Some selected /\
                   selected ≡ₚ [0; 1; 2; 3]%nat.
Proof.
  intros Hreach Hcycle.
  pose proof (calls_well_formed ks init self init_well_formed Hreach) as Hwf.
  split; [| split; [| split]].
  - destruct (refresh_ok self Hwf) as (s1 & s2 & s3 & H). exists s1, s2, s3.
    tauto.
  - by destruct Hwf as (_ & _ & _ & _ & Hc & _).
  - destruct Hwf as (Hs & Hd & Hb & Hm & Hc & Hlit).
    destruct self as [segs digs dp buf dots cur]; simpl in *.
    destruct (four_pins _ Hd) as (a & b & c & d & ->).
    pose proof (Hlit 0%nat) as H0. pose proof (Hlit 1%nat) as H1.
    pose proof (Hlit 2%nat) as H2. pose proof (Hlit 3%nat) as H3.
    assert (cur = 0 \/ cur = 1 \/ cur = 2 \/ cur = 3) as [-> | [-> | [-> | ->]]] by lia.
    all: unfold lit, ndigits; simpl; rewrite ?filter_cons, ?filter_nil;
      repeat case_decide; simpl; try lia; lit_absurd.
  - rewrite (selections_round cycle self Hwf), Hcycle.
    eexists; split; [reflexivity |].
    destruct Hwf as (_ & _ & _ & _ & Hc & _).
    assert (current_digit self = 0 \/ current_digit self = 1 \/
            current_digit self = 2 \/ current_digit self = 3)
      as [-> | [-> | [-> | ->]]] by lia.
    all: by apply (bool_decide_unpack _).
Qed.

(** The theorem at the instance reached by a write and two refreshes, with
    a cycle of four refreshes that has a write and a clear in between. *)
Lemma refresh_selects_each_digit_once_witness :
  let ks := [CallWrite (Py.PyStr "0205"); CallRefresh; CallRefresh] in
  let cycle := [CallRefresh; CallWrite (Py.PyInt 7); CallRefresh; CallClear;
                CallRefresh; CallRefresh] in
  exists self,
    calls ks init = Some self /\ refreshes cycle = 4%nat /\
    current_digit self = 2 /\
    exists selected, selections cycle self = Some selected /\
                     selected ≡ₚ [0; 1; 2; 3]%nat.
Proof.
  intros ks cycle. eexists. split; [reflexivity |]. split; [reflexivity |].
  split; [reflexivity |].
  eapply (refresh_selects_each_digit_once ks cycle); reflexivity.
Defined.

(** C9: on the 4-digit buffer of an instance reached from [__init__],
    [write(text)] with a string stores the first four characters of the
    text from the left and fills what is missing to four cells with blanks
    on the right: shorter texts are padded, longer ones truncated;
    [write("1")] gives ['1',' ',' ',' '] and [write("12345")] gives
    ['1','2','3','4']. *)
Theorem write_pads_and_truncates (ks : list Call) (self : SevenSegmentDisplay)
    (text : string) :
  calls ks init = Some self ->
  buffer <$> write self (Py.PyStr text)
  = Some (take 4 (Py.list_of_str text)
          ++ replicate (4 - String.length text) " "%char) /\
  ((String.length text < 4)%nat ->
   buffer <$> write self (Py.PyStr text)
   = Some (Py.list_of_str text ++ replicate (4 - String.length text) " "%char)) /\
  ((4 <= String.length text)%nat ->
   buffer <$> write self (Py.PyStr text) = Some (take 4 (Py.list_of_str text))) /\
  buffer <$> write self (Py.PyStr "1") = Some ["1"; " "; " "; " "]%char /\
  buffer <$> write self (Py.PyStr "12345") = Some ["1"; "2"; "3"; "4"]%char.
Proof.
  intros Hreach.
  pose proof (calls_well_formed ks init self init_well_formed Hreach)
    as (_ & Hd & _).
  assert (Hw : forall t : string,
             buffer <$> write self (Py.PyStr t)
             = Some (take 4 (Py.list_of_str t)
                     ++ replicate (4 - String.length t) " "%char)).
  { intros t. unfold write, write_str, ndigits. simpl. rewrite Hd.
    f_equal. apply list_of_str_fit. }
  repeat split.
  - apply Hw.
  - intros Hlt. rewrite Hw, take_ge; [done |]. rewrite length_list_of_str. lia.
  - intros Hge. rewrite Hw.
    replace (4 - String.length text)%nat with O by lia. by rewrite app_nil_r.
  - apply Hw.
  - apply Hw.
Qed.

Lemma write_pads_and_truncates_witness :
  calls [CallSetDecimalPoint 1 true] init = Some (set_decimal_point init 1 true) /\
  buffer <$> write (set_decimal_point init 1 true) (Py.PyStr "12")
  = Some ["1"; "2"; " "; " "]%char.
Proof.
  split; [reflexivity |].
  pose proof (write_pads_and_truncates [CallSetDecimalPoint 1 true]
                (set_decimal_point init 1 true) "12" eq_refl) as (Hw & _).
  exact Hw.
Defined.

(** C10, as the code has it: [write] takes any value and coerces it with
    [str] first.  When [str(text)] returns, the call returns and is the
    write of the string returned: on an instance reached from [__init__] the
    buffer then has exactly four cells, the first four characters of that
    string padded with blanks, and the decimal-point mask, the pins and the
    cursor are the ones from before; [write(7)] gives ['7',' ',' ',' '] with
    the dot mask intact.  When [str(text)] raises, the call raises, and the
    instance is as it was. *)
Theorem write_coerces_and_keeps_dots (ks : list Call) (self : SevenSegmentDisplay)
    (text : Py.value) :
  calls ks init = Some self ->
  (forall shown : string,
      Py.str text = Some shown ->
      exists self',
        write self text = Some self' /\
        write self (Py.PyStr shown) = Some self' /\
        buffer self'
        = take 4 (Py.list_of_str shown)
          ++ replicate (4 - String.length shown) " "%char /\
        length (buffer self') = 4%nat /\
        dotmask self' = dotmask self /\
        segments self' = segments self /\ digits self' = digits self /\
        dp self' = dp self /\ current_digit self' = current_digit self) /\
  (Py.str text = None ->
   write self text = None /\ call (CallWrite text) self = Some self) /\
  exists self',
    write self (Py.PyInt 7) = Some self' /\
    buffer self' = ["7"; " "; " "; " "]%char /\ dotmask self' = dotmask self.
Proof.
  intros Hreach.
  pose proof (calls_well_formed ks init self init_well_formed Hreach)
    as (_ & Hd & _).
  assert (Hw : forall t : string,
             buffer (write_str self t)
             = take 4 (Py.list_of_str t)
               ++ replicate (4 - String.length t) " "%char).
  { intros t. unfold write_str, ndigits. simpl. rewrite Hd. apply list_of_str_fit. }
  split; [| split].
  - intros shown Hshown. exists (write_str self shown).
    split; [unfold write; by rewrite Hshown |].
    split; [done |]. split; [apply Hw |].
    split; [| done].
    rewrite Hw, length_app, length_take, length_replicate, length_list_of_str. lia.
  - intros Hraise. unfold call, write. rewrite Hraise. done.
  - exists (write_str self "7"). split; [done |]. split; [apply Hw | done].
Qed.

Lemma write_coerces_and_keeps_dots_witness :
  calls [CallSetDecimalPoint 1 true] init = Some (set_decimal_point init 1 true) /\
  Py.str (Py.PyInt (-12345)) = Some "-12345" /\
  exists self',
    write (set_decimal_point init 1 true) (Py.PyInt (-12345)) = Some self' /\
    buffer self' = ["-"; "1"; "2"; "3"]%char /\
    dotmask self' = [false; true; false; false].
Proof.
  split; [reflexivity |]. split; [reflexivity |].
  pose proof (write_coerces_and_keeps_dots [CallSetDecimalPoint 1 true]
                (set_decimal_point init 1 true) (Py.PyInt (-12345)) eq_refl)
    as (Hshown & _).
  destruct (Hshown "-12345" eq_refl) as (self' & E & _ & Hbuf & _ & Hdots & _).
  exists self'. split; [exact E |]. split; [exact Hbuf | exact Hdots].
Defined.

(** C10 fails as stated: [write] does not take every value.  A value whose
    [__str__] raises, or returns something that is not a string, makes
    [str(text)] raise at the first statement of [write], and nothing in
    [write] catches it: the call raises. *)
Lemma write_raises_when_str_raises :
  calls [] init = Some init /\
  Py.str (Py.PyObj None) = None /\
  write init (Py.PyObj None) = None /\
  ~ (forall text : Py.value, is_Some (write init text)).
Proof.
  split; [reflexivity |]. split; [reflexivity |]. split; [reflexivity |].
  intros Hall. destruct (Hall (Py.PyObj None)) as [self' E]. discriminate E.
Qed.

End SevenSegmentFacts.

(** ** Arithmetic of the millisecond ticks *)

Module TimeFacts.

Import Time.

Lemma ticks_period_pos : 0 < TICKS_PERIOD.
Proof. reflexivity. Qed.

Lemma ticks_add_ms (clock delta : Z) :
  ticks_add (ticks_ms clock) delta = ticks_ms (clock + delta).
Proof. unfold ticks_add, ticks_ms. apply Zplus_mod_idemp_l. Qed.

Lemma ticks_diff_ms (a b : Z) :
  - (TICKS_PERIOD `div` 2) <= a - b < TICKS_PERIOD `div` 2 ->
  ticks_diff (ticks_ms a) (ticks_ms b) = a - b.
Proof.
  intros H. unfold ticks_diff, ticks_ms.
  replace (a `mod` TICKS_PERIOD - b `mod` TICKS_PERIOD + TICKS_PERIOD `div` 2)
    with ((a `mod` TICKS_PERIOD - b `mod` TICKS_PERIOD) + TICKS_PERIOD `div` 2) by lia.
  rewrite <- Zplus_mod_idemp_l, <- Zminus_mod, Zplus_mod_idemp_l.
  rewrite Z.mod_small; [lia |].
  change (TICKS_PERIOD `div` 2) with 536870912 in *.
  change TICKS_PERIOD with 1073741824. lia.
Qed.

Lemma ticks_ms_eq (a b : Z) :
  0 <= a - b < TICKS_PERIOD -> ticks_ms a = ticks_ms b -> a = b.
Proof.
  unfold ticks_ms. intros H E.
  assert (Hm : (a - b) `mod` TICKS_PERIOD = 0).
  { rewrite Zminus_mod, E, Z.sub_diag. reflexivity. }
  rewrite Z.mod_small in Hm by lia. lia.
Qed.

End TimeFacts.

(** ** Properties of [countdown] *)

Module CountdownFacts.

Import SevenSegment Main Time TimeFacts.

Lemma countdown_run_app xs ys c :
  countdown_run (xs ++ ys) c = countdown_run ys (countdown_run xs c).
Proof. unfold countdown_run. apply foldl_app. Qed.

Lemma countdown_run_snoc xs x c :
  countdown_run (xs ++ [x]) c = countdown_step x (countdown_run xs c).
Proof. unfold countdown_run. by rewrite foldl_snoc. Qed.

Lemma countdown_run_cons x xs c :
  countdown_run (x :: xs) c = countdown_run xs (countdown_step x c).
Proof. reflexivity. Qed.

(** Destructs the tests of one pass. *)
Ltac step_cases c x :=
  unfold countdown_step, last_minute, pass, sleep_ms, display_write, display_clear, update_led;
  destruct (loc c) eqn:?; simpl;
  repeat match goal with
         | |- context [if ?b then _ else _] => destruct b eqn:?; simpl
         | |- context [match led_color_last_min c with _ => _ end] =>
             destruct (led_color_last_min c) eqn:?; simpl
         end.

Lemma clock_step x c : clock (board c) <= clock (board (countdown_step x c)).
Proof. step_cases c x; lia. Qed.

Lemma clock_run xs c : clock (board c) <= clock (board (countdown_run xs c)).
Proof.
  revert c. induction xs as [|x xs IH]; intros c; simpl; [lia |].
  etrans; [apply (clock_step x) | apply IH].
Qed.

Lemma seconds_step x c : seconds (countdown_step x c) <= seconds c.
Proof. step_cases c x; lia. Qed.


Lemma not_expired_before (D now : Z) :
  D - 1000 <= now ->
  (ticks_diff (ticks_ms D) (ticks_ms now) >? 0) = false -> D <= now.
Proof.
  intros Hlo Hd. destruct (Z_lt_le_dec now D) as [Hlt|]; [| done].
  rewrite ticks_diff_ms in Hd.
  - rewrite Z.gtb_ltb in Hd. apply Z.ltb_ge in Hd. lia.
  - change (TICKS_PERIOD `div` 2) with 536870912. lia.
Qed.

Lemma tick_step (s0 D : Z) (x : Sample) (c : Countdown) :
  D - 1000 <= clock (board c) ->
  (seconds c = s0 /\ end_time c = ticks_ms D /\
     (loc c = Polling \/ loc c = Blinking \/ loc c = Restart))
  \/ (seconds c < s0 /\ D <= clock (board c)) ->
  let c' := countdown_step x c in
  D - 1000 <= clock (board c') /\
  ((seconds c' = s0 /\ end_time c' = ticks_ms D /\
      (loc c' = Polling \/ loc c' = Blinking \/ loc c' = Restart))
   \/ (seconds c' < s0 /\ D <= clock (board c'))).
Proof.
  intros Hlo H. simpl.
  pose proof (clock_step x c) as Hclk. pose proof (seconds_step x c) as Hsec.
  split; [lia |].
  destruct H as [(Hs & He & Hl) | (Hs & Hd)]; [| right; lia].
  destruct Hl as [Hl | [Hl | Hl]]; unfold countdown_step in *; rewrite Hl in *; simpl in *.
  - destruct (ticks_diff (end_time c) (ticks_ms (clock (board c) + Z.of_N (elapsed x))) >? 0) eqn:Hd; simpl.
    + left. repeat split; try done. destruct (not_ (btn_reset x)); auto.
    + right. split; [lia |]. rewrite He in Hd. apply not_expired_before in Hd; lia.
  - left. destruct (paused_flag c); [destruct (not_ (btn_confirm x)) |]; simpl; auto.
  - left. auto.
Qed.

Lemma tick_run (s0 D : Z) (xs : list Sample) (c : Countdown) :
  D - 1000 <= clock (board c) ->
  (seconds c = s0 /\ end_time c = ticks_ms D /\
     (loc c = Polling \/ loc c = Blinking \/ loc c = Restart))
  \/ (seconds c < s0 /\ D <= clock (board c)) ->
  let c' := countdown_run xs c in
  D - 1000 <= clock (board c') /\
  ((seconds c' = s0 /\ end_time c' = ticks_ms D /\
      (loc c' = Polling \/ loc c' = Blinking \/ loc c' = Restart))
   \/ (seconds c' < s0 /\ D <= clock (board c'))).
Proof.
  revert c. induction xs as [|x xs IH]; intros c Hlo H; simpl; [done |].
  destruct (tick_step s0 D x c Hlo H) as [Hlo' H']. apply IH; done.
Qed.

(** The pass that opens a tick. *)
Lemma tick_opens (x : Sample) (c : Countdown) :
  loc c = AtTick -> 0 <= seconds c ->
  let c' := countdown_step x c in
  loc c' = Polling /\ seconds c' = seconds c /\
  frame c' = mmss (seconds c) /\
  clock (board c') = clock (board c) + Z.of_N (elapsed x) /\
  end_time c' = ticks_add (ticks_ms (clock (board c'))) 1000 /\
  display (board c') = write_str (display (board c)) (mmss (seconds c)) /\
  paused_flag c' = paused_flag c.
Proof.
  intros Hl Hs. unfold countdown_step. rewrite Hl.
  destruct (Z.geb_spec (seconds c) 0) as [_|?]; [| lia].
  unfold last_minute.
  destruct (led_color_last_min c) as [colour|];
    [destruct ((seconds c =? 60) && negb (color_changed c)) |]; simpl; done.
Qed.

(** C1, as the code has it: the pass that opens a tick reads the clock and
    sets the deadline to that reading plus 1000 ms, so the deadline is
    computed anew from the current time after the polling of the tick
    before.  The wait loop of a tick cannot end before its deadline, so the
    next tick opens no earlier than the previous deadline; its deadline is
    the previous deadline plus 1000 ms exactly when the clock reading that
    opens it falls on the previous deadline, and is later by the overshoot
    of the polling, the debounce sleeps and the pause otherwise. *)
Theorem deadline_recomputed_each_tick (c : Countdown) (x y : Sample)
    (xs : list Sample) :
  loc c = AtTick -> 0 <= seconds c ->
  let c1 := countdown_step x c in
  let c2 := countdown_run xs c1 in
  loc c2 = AtTick -> seconds c2 = seconds c - 1 -> 0 <= seconds c2 ->
  let c3 := countdown_step y c2 in
  end_time c1 = ticks_add (ticks_ms (clock (board c1))) 1000 /\
  clock (board c1) = clock (board c) + Z.of_N (elapsed x) /\
  end_time c3 = ticks_add (ticks_ms (clock (board c3))) 1000 /\
  clock (board c3) = clock (board c2) + Z.of_N (elapsed y) /\
  clock (board c1) + 1000 <= clock (board c2) /\
  (clock (board c3) - (clock (board c1) + 1000) < TICKS_PERIOD ->
   (Spec.deadline_from_previous c1 c3 <->
    clock (board c3) = clock (board c1) + 1000)).
Proof.
  intros Hl Hs c1 c2 Hl2 Hs2 Hs2' c3.
  destruct (tick_opens x c Hl Hs) as (L1 & S1 & _ & K1 & E1 & _).
  destruct (tick_opens y c2 Hl2 Hs2') as (L3 & S3 & _ & K3 & E3 & _).
  fold c1 in L1, S1, K1, E1. fold c3 in L3, S3, K3, E3.
  assert (Hend : clock (board c1) + 1000 <= clock (board c2)).
  { destruct (tick_run (seconds c) (clock (board c1) + 1000) xs c1) as (_ & H).
    - lia.
    - left. rewrite E1, ticks_add_ms. auto.
    - fold c2 in H. destruct H as [(H & _) | (_ & H)]; lia. }
  do 5 (split; [done |]). intros Hbound.
  pose proof (clock_step y c2) as Hmono. fold c3 in Hmono.
  split.
  - unfold Spec.deadline_from_previous. rewrite E3, E1, !ticks_add_ms. intros E.
    apply ticks_ms_eq in E; lia.
  - unfold Spec.deadline_from_previous. rewrite E3, E1, !ticks_add_ms. intros ->.
    f_equal; lia.
Qed.

(** A tick polled at 400 ms and again exactly at its deadline: the next
    deadline is then the previous one plus 1000 ms. *)
Lemma deadline_recomputed_each_tick_witness :
  let c := countdown 125 false (0, 255, 0) (Some (255, 255, 0)) power_up in
  let c1 := countdown_step (idle 0) c in
  let c2 := countdown_run [idle 400; idle 0; idle 600] c1 in
  let c3 := countdown_step (idle 0) c2 in
  (loc c = AtTick /\ 0 <= seconds c) /\
  (loc c2 = AtTick /\ seconds c2 = seconds c - 1 /\ 0 <= seconds c2) /\
  clock (board c1) + 1000 <= clock (board c2) /\
  (Spec.deadline_from_previous c1 c3 <-> clock (board c3) = clock (board c1) + 1000).
Proof.
  intros c c1 c2 c3.
  assert (H1 : loc c = AtTick) by reflexivity.
  assert (H2 : 0 <= seconds c) by (vm_compute; discriminate).
  assert (H3 : loc c2 = AtTick) by reflexivity.
  assert (H4 : seconds c2 = seconds c - 1) by reflexivity.
  assert (H5 : 0 <= seconds c2) by (vm_compute; discriminate).
  pose proof (deadline_recomputed_each_tick c (idle 0) (idle 0)
                [idle 400; idle 0; idle 600] H1 H2 H3 H4 H5)
    as (_ & _ & _ & _ & Hle & Hiff).
  repeat split; try assumption; apply Hiff; reflexivity.
Defined.

(** C1 fails as stated: the confirm button is held from 900 ms into the
    first tick; the two debounce sleeps take the clock to 1500 ms, the
    second tick opens there and its deadline is 2500, not 1000 + 1000. *)
Lemma deadline_drifts_after_polling :
  let c := countdown 125 false (0, 255, 0) (Some (255, 255, 0)) power_up in
  let c1 := countdown_step (idle 0) c in
  let c2 := countdown_run [press_confirm 900; press_confirm 0; idle 0] c1 in
  let c3 := countdown_step (idle 0) c2 in
  end_time c1 = 1000 /\ seconds c1 = 125 /\
  loc c2 = AtTick /\ seconds c2 = 124 /\
  end_time c3 = 2500 /\
  ~ Spec.deadline_from_previous c1 c3.
Proof.
  intros c c1 c2 c3. repeat split; try reflexivity.
  unfold Spec.deadline_from_previous. vm_compute. discriminate.
Qed.

(** What every run of a phase of [d] seconds keeps. *)
Lemma phase_step (d : Z) (x : Sample) (c : Countdown) :
  -1 <= seconds c <= d ->
  (loc c = Done -> seconds c = -1) ->
  (in_tick c \/ loc c = Restart -> 0 <= seconds c /\ frame c = mmss (seconds c)) ->
  let c' := countdown_step x c in
  -1 <= seconds c' <= d /\
  (loc c' = Done -> seconds c' = -1) /\
  (in_tick c' \/ loc c' = Restart -> 0 <= seconds c' /\ frame c' = mmss (seconds c')).
Proof.
  intros Hr Hd Hf. unfold in_tick in *. simpl.
  unfold countdown_step, last_minute.
  destruct (loc c) eqn:Hl.
  - destruct (Z.geb_spec (seconds c) 0).
    + destruct (led_color_last_min c);
        [destruct ((seconds c =? 60) && negb (color_changed c)) |]; simpl;
        (split; [lia | split; [done | intros _; split; [lia | done]]]).
    + simpl. split; [lia | split; [lia |]]. intros [[? | ?] | ?]; done.
  - destruct Hf as [Hs Hf]; [auto |].
    destruct (ticks_diff _ _ >? 0); simpl.
    + split; [lia | split]; [destruct (not_ (btn_reset x)); done |]. intros _. done.
    + split; [lia | split; [done |]]. intros [[? | ?] | ?]; done.
  - destruct Hf as [Hs Hf]; [auto |].
    destruct (paused_flag c); [destruct (not_ (btn_confirm x)) |]; simpl;
      (split; [lia | split; [done | done]]).
  - rewrite Hl. auto.
  - rewrite Hl. auto.
Qed.

Lemma phase_run (d : Z) (xs : list Sample) (c : Countdown) :
  -1 <= seconds c <= d ->
  (loc c = Done -> seconds c = -1) ->
  (in_tick c \/ loc c = Restart -> 0 <= seconds c /\ frame c = mmss (seconds c)) ->
  let c' := countdown_run xs c in
  -1 <= seconds c' <= d /\
  (loc c' = Done -> seconds c' = -1) /\
  (in_tick c' \/ loc c' = Restart -> 0 <= seconds c' /\ frame c' = mmss (seconds c')).
Proof.
  revert c. induction xs as [|x xs IH]; intros c Hr Hd Hf; simpl; [done |].
  destruct (phase_step d x c Hr Hd Hf) as (Hr' & Hd' & Hf'). by apply IH.
Qed.

(** A quiet tick takes the countdown from one tick to the next. *)
Lemma quiet_tick_run (c : Countdown) :
  loc c = AtTick -> 0 <= seconds c ->
  let c' := countdown_run quiet_tick c in
  loc c' = AtTick /\ seconds c' = seconds c - 1 /\
  clock (board c') = clock (board c) + 1000.
Proof.
  intros Hl Hs. unfold quiet_tick. rewrite countdown_run_cons.
  destruct (tick_opens (idle 0) c Hl Hs) as (L & S & _ & K & E & _).
  set (c1 := countdown_step (idle 0) c) in *. clearbody c1. simpl.
  unfold countdown_step, pass, sleep_ms, idle. rewrite L. simpl.
  rewrite E, ticks_add_ms. rewrite ticks_diff_ms; [| change (TICKS_PERIOD `div` 2) with 536870912; lia].
  rewrite Z.sub_diag. simpl. unfold idle in K. simpl in K. repeat split; lia.
Qed.

Lemma quiet_ticks_run (n : nat) (c : Countdown) :
  loc c = AtTick -> Z.of_nat n <= seconds c + 1 ->
  let c' := countdown_run (quiet_ticks n) c in
  loc c' = AtTick /\ seconds c' = seconds c - Z.of_nat n /\
  clock (board c') = clock (board c) + 1000 * Z.of_nat n.
Proof.
  revert c. induction n as [|n IH]; intros c Hl Hn.
  - simpl. repeat split; [done | lia | lia].
  - change (quiet_ticks (S n)) with (quiet_tick ++ quiet_ticks n).
    cbv zeta. rewrite countdown_run_app.
    destruct (quiet_tick_run c Hl) as (L & S & K); [lia |].
    destruct (IH (countdown_run quiet_tick c) L) as (L' & S' & K'); [lia |].
    repeat split; [done | lia | lia].
Qed.

Lemma mmss_scenario :
  mmss 125 = "0205" /\ mmss (125 - 65) = "0100" /\ mmss (125 - 125) = "0000".
Proof. repeat split; reflexivity. Qed.

(** C3, as the code has it: a phase ends exactly when the seconds pass
    below zero, which is after duration + 1 ticks.  On every run the
    seconds stay between -1 and the duration, the countdown has returned
    only with the seconds at -1 and no sooner than 1000 ms after its start,
    and within a tick the frame is the MMSS of the seconds.  After [k]
    quiet ticks, [k] up to the duration, the next pass opens the tick that
    shows the MMSS of duration - [k]; after duration + 1 of them the next
    pass returns.  Started with 125: first frame 0205, after 65 ticks 0100,
    after 125 ticks 0000, done after 126 ticks. *)
Theorem done_when_below_zero (d : Z) (paused : bool) (full : Color)
    (last_min : option Color) (b : Board) (xs : list Sample) (k : nat) :
  0 <= d ->
  let start := countdown d paused full last_min b in
  let c := countdown_run xs start in
  let q := countdown_run (quiet_ticks k) start in
  -1 <= seconds c <= d /\
  (loc c = Done -> seconds c = -1 /\ clock b + 1000 <= clock (board c)) /\
  (in_tick c -> 0 <= seconds c /\ frame c = mmss (seconds c)) /\
  (Z.of_nat k <= d ->
   loc q = AtTick /\ seconds q = d - Z.of_nat k /\
   loc (countdown_step (idle 0) q) = Polling /\
   frame (countdown_step (idle 0) q) = mmss (d - Z.of_nat k)) /\
  (Z.of_nat k = d + 1 ->
   loc q = AtTick /\ seconds q = -1 /\ loc (countdown_step (idle 0) q) = Done) /\
  mmss 125 = "0205" /\ mmss (125 - 65) = "0100" /\ mmss (125 - 125) = "0000".
Proof.
  intros Hd start c q.
  assert (Hstart : loc start = AtTick /\ seconds start = d /\ board start = b)
    by done.
  destruct Hstart as (Ls & Ss & Bs).
  destruct (phase_run d xs start) as (Hr & Hdone & Hf).
  { rewrite Ss. lia. }
  { rewrite Ls. done. }
  { rewrite Ls. unfold in_tick. intros [[? | ?] | ?]; done. }
  fold c in Hr, Hdone, Hf.
  split; [done |]. split; [| split; [auto | split; [| split; [| apply mmss_scenario]]]].
  - intros Hl. split; [auto |].
    destruct xs as [|x xs]; [done |].
    destruct (tick_opens x start Ls) as (L1 & S1 & _ & K1 & E1 & _); [lia |].
    destruct (tick_run d (clock (board (countdown_step x start)) + 1000) xs
                (countdown_step x start)) as (_ & H).
    + lia.
    + left. rewrite E1, ticks_add_ms. split; [congruence | auto].
    + change (countdown_run xs (countdown_step x start)) with c in H.
      specialize (Hdone Hl). rewrite Bs in K1.
      destruct H as [(H & _) | (_ & H)]; lia.
  - intros Hk.
    destruct (quiet_ticks_run k start Ls) as (L & S & _); [lia |].
    fold q in L, S. rewrite Ss in S.
    destruct (tick_opens (idle 0) q L) as (L' & S' & F' & _); [lia |].
    rewrite F', S. done.
  - intros Hk.
    destruct (quiet_ticks_run k start Ls) as (L & S & _); [lia |].
    fold q in L, S. rewrite Ss in S.
    split; [done |]. split; [lia |].
    unfold countdown_step. rewrite L.
    destruct (Z.geb_spec (seconds q) 0); [lia | done].
Qed.

Lemma done_when_below_zero_witness :
  let start := countdown 125 false (0, 255, 0) (Some (255, 255, 0)) power_up in
  0 <= 125 /\
  loc (countdown_step (idle 0) (countdown_run (quiet_ticks 65) start)) = Polling /\
  frame (countdown_step (idle 0) (countdown_run (quiet_ticks 65) start)) = "0100" /\
  loc (countdown_step (idle 0) (countdown_run (quiet_ticks 126) start)) = Done.
Proof.
  intros start.
  assert (H : 0 <= 125) by (vm_compute; discriminate).
  pose proof (done_when_below_zero 125 false (0, 255, 0) (Some (255, 255, 0))
                power_up [] 65 H) as (_ & _ & _ & H65 & _).
  pose proof (done_when_below_zero 125 false (0, 255, 0) (Some (255, 255, 0))
                power_up [] 126 H) as (_ & _ & _ & _ & H126 & _).
  destruct H65 as (_ & _ & L65 & F65); [vm_compute; discriminate |].
  destruct H126 as (_ & _ & L126); [reflexivity |].
  split; [exact H |]. split; [exact L65 |]. split; [exact F65 | exact L126].
Defined.

(** C3 fails as stated: after 125 ticks the phase started with 125 seconds
    is not done, it opens the tick that shows 0000; and a phase of zero
    seconds opens a tick that shows 0000 instead of being done at once. *)
Lemma not_done_after_duration_ticks :
  let start := countdown 125 false (0, 255, 0) (Some (255, 255, 0)) power_up in
  let c := countdown_run (quiet_ticks 125) start in
  let zero := countdown 0 false (0, 255, 0) (Some (255, 255, 0)) power_up in
  (seconds c = 125 - 125 /\ loc c = AtTick /\
   loc (countdown_step (idle 0) c) = Polling /\
   frame (countdown_step (idle 0) c) = "0000" /\
   loc (countdown_step (idle 0) c) <> Done) /\
  (loc zero = AtTick /\
   loc (countdown_step (idle 0) zero) = Polling /\
   frame (countdown_step (idle 0) zero) = "0000" /\
   loc (countdown_run [idle 0; idle 999; idle 0] zero) <> Done /\
   loc (countdown_run [idle 0; idle 1000; idle 0] zero) = Done).
Proof.
  intros start c zero. vm_compute. repeat split; try reflexivity; discriminate.
Qed.

(** The LED calls made by a pass: one, by the pass that opens the tick at
    60 seconds, if a last-minute colour is given and the change was not
    made before; none otherwise. *)
Lemma led_step (x : Sample) (c : Countdown) :
  led_calls (board (countdown_step x c))
  = match loc c, led_color_last_min c with
    | AtTick, Some colour =>
        if (seconds c =? 60) && negb (color_changed c)
        then colour :: led_calls (board c) else led_calls (board c)
    | _, _ => led_calls (board c)
    end.
Proof.
  unfold countdown_step, last_minute.
  destruct (loc c) eqn:Hl; simpl.
  - destruct (Z.geb_spec (seconds c) 0) as [Hs|Hs].
    + destruct (led_color_last_min c);
        [destruct ((seconds c =? 60) && negb (color_changed c)) |]; done.
    + simpl. destruct (led_color_last_min c); [| done].
      destruct (Z.eqb_spec (seconds c) 60); [lia | done].
  - destruct (ticks_diff _ _ >? 0); simpl; [| done].
    destruct (not_ (btn_confirm x)); done.
  - destruct (paused_flag c); [destruct (not_ (btn_confirm x)) |]; simpl; try done.
    destruct (_ =? 0); done.
  - done.
  - done.
Qed.

Ltac z_absurd :=
  exfalso;
  repeat match goal with
         | H : (_ =? _) = true |- _ => apply Z.eqb_eq in H
         | H : (_ =? _) = false |- _ => apply Z.eqb_neq in H
         | H : (_ <? _) = true |- _ => apply Z.ltb_lt in H
         | H : (_ <? _) = false |- _ => apply Z.ltb_ge in H
         | H : (_ >=? _) = true |- _ => apply Z.geb_le in H
         | H : (_ >=? _) = false |- _ => rewrite Z.geb_leb in H; apply Z.leb_gt in H
         end;
  lia.

Lemma last_minute_step (colour : Color) (calls : list Color) (x : Sample)
    (c : Countdown) :
  led_color_last_min c = Some colour ->
  color_changed c = last_minute_begun c ->
  led_calls (board c) = (if last_minute_begun c then [colour] else []) ++ calls ->
  let c' := countdown_step x c in
  led_color_last_min c' = Some colour /\
  color_changed c' = last_minute_begun c' /\
  led_calls (board c') = (if last_minute_begun c' then [colour] else []) ++ calls.
Proof.
  intros Hc Hch Hcalls. simpl. rewrite led_step, Hc, Hcalls.
  revert Hch. unfold last_minute_begun, countdown_step, last_minute.
  rewrite Hc. destruct (loc c) eqn:Hl; simpl.
  - destruct (seconds c >=? 0) eqn:Ege; destruct (seconds c =? 60) eqn:E60;
      destruct (seconds c <? 60) eqn:Elt; try solve [z_absurd];
      simpl; intros Hch; rewrite ?Hch; simpl; rewrite ?E60, ?Elt; simpl; done.
  - destruct (ticks_diff _ _ >? 0); simpl.
    + destruct (not_ (btn_reset x)); simpl; done.
    + destruct (seconds c =? 60) eqn:E60; destruct (seconds c <? 60) eqn:Elt;
        destruct (seconds c - 1 =? 60) eqn:E60'; 
        destruct (seconds c - 1 <? 60) eqn:Elt'; try solve [z_absurd];
        simpl; intros Hch; rewrite ?Hch; simpl; done.
  - destruct (paused_flag c); [destruct (not_ (btn_confirm x)) |]; simpl; done.
  - rewrite Hl, Hc. done.
  - rewrite Hl, Hc. done.
Qed.

Lemma last_minute_run (colour : Color) (calls : list Color) (xs : list Sample)
    (c : Countdown) :
  led_color_last_min c = Some colour ->
  color_changed c = last_minute_begun c ->
  led_calls (board c) = (if last_minute_begun c then [colour] else []) ++ calls ->
  let c' := countdown_run xs c in
  led_color_last_min c' = Some colour /\
  color_changed c' = last_minute_begun c' /\
  led_calls (board c') = (if last_minute_begun c' then [colour] else []) ++ calls.
Proof.
  revert c. induction xs as [|x xs IH]; intros c H1 H2 H3; simpl; [done |].
  destruct (last_minute_step colour calls x c H1 H2 H3) as (H1' & H2' & H3').
  by apply IH.
Qed.

(** C4: in a phase of at least 60 seconds with a last-minute colour, on
    every run (pauses and resumes included) the LED calls made by the phase
    are none until the pass that opens the tick at 60 seconds, and exactly
    the one call with the last-minute colour from that pass on; a pass
    makes a LED call only if it opens the tick at 60 seconds, and a phase
    that has returned has made the call exactly once. *)
Theorem last_minute_fires_once (d : Z) (paused : bool) (full colour : Color)
    (b : Board) (xs : list Sample) (x : Sample) :
  60 <= d ->
  let c := countdown_run xs (countdown d paused full (Some colour) b) in
  led_calls (board c) = (if last_minute_begun c then [colour] else []) ++ led_calls b /\
  color_changed c = last_minute_begun c /\
  led_calls (board (countdown_step x c))
  = (if match loc c with AtTick => seconds c =? 60 | _ => false end
     then [colour] else []) ++ led_calls (board c) /\
  (loc c = Done -> led_calls (board c) = colour :: led_calls b).
Proof.
  intros Hd c.
  destruct (last_minute_run colour (led_calls b) xs
              (countdown d paused full (Some colour) b)) as (H1 & H2 & H3).
  { done. }
  { unfold last_minute_begun. simpl.
    destruct (Z.ltb_spec d 60); [lia |]. simpl. by rewrite andb_false_r. }
  { unfold last_minute_begun. simpl.
    destruct (Z.ltb_spec d 60); [lia |]. simpl. by rewrite andb_false_r. }
  fold c in H1, H2, H3.
  split; [done |]. split; [done |]. split.
  - rewrite led_step, H1, H2. unfold last_minute_begun.
    destruct (loc c); try done.
    destruct (Z.eqb_spec (seconds c) 60) as [->|]; simpl; [| done].
    done.
  - intros Hl.
    destruct (phase_run d xs (countdown d paused full (Some colour) b))
      as (_ & Hdone & _); simpl; [lia | done | |].
    { unfold in_tick. simpl. intros [[? | ?] | ?]; done. }
    fold c in Hdone. specialize (Hdone Hl).
    rewrite H3. unfold last_minute_begun. rewrite Hdone. done.
Qed.

Lemma last_minute_fires_once_witness :
  let c := countdown_run (quiet_ticks 2 ++ [idle 0; press_confirm 10; idle 50;
                                            press_confirm 50; idle 0; idle 0])
             (countdown 62 false (0, 255, 0) (Some (255, 255, 0)) power_up) in
  60 <= 62 /\ seconds c = 60 /\ loc c = Polling /\
  led_calls (board c) = [(255, 255, 0)] /\
  led_calls (board (countdown_step (idle 1000) c)) = [(255, 255, 0)].
Proof.
  intros c.
  assert (H : 60 <= 62) by (vm_compute; discriminate).
  pose proof (last_minute_fires_once 62 false (0, 255, 0) (255, 255, 0) power_up
                (quiet_ticks 2 ++ [idle 0; press_confirm 10; idle 50;
                                   press_confirm 50; idle 0; idle 0]) (idle 1000) H)
    as (H1 & _ & H3 & _).
  split; [exact H |]. split; [reflexivity |]. split; [reflexivity |].
  split; [exact H1 | exact H3].
Defined.

(** For a number below 100, the format [{n:02}] is its two digits. *)
Lemma format_02_two_digits (n : Z) :
  0 <= n < 100 -> Py.format_02 n = Spec.zero_pad2 n.
Proof.
  intros Hn.
  assert (Hall : forallb (fun k : nat =>
                            String.eqb (Py.format_02 (Z.of_nat k))
                                       (Spec.zero_pad2 (Z.of_nat k)))
                         (seq 0 100) = true) by (vm_compute; reflexivity).
  rewrite forallb_forall in Hall.
  specialize (Hall (Z.to_nat n)).
  rewrite Z2Nat.id in Hall by lia.
  apply String.eqb_eq, Hall, in_seq. lia.
Qed.

(** C6: for seconds in [0, 5999] the frame is the two-digit zero-padded
    quotient by 60 followed by the two-digit zero-padded remainder, four
    characters in MMSS order, and the pass that opens the tick writes
    exactly these four characters to the 4-digit display. *)
Theorem frame_is_zero_padded_mmss (secs : Z) (c : Countdown) (x : Sample) :
  0 <= secs <= 5999 ->
  loc c = AtTick -> seconds c = secs -> ndigits (display (board c)) = 4%nat ->
  mmss secs = (Spec.zero_pad2 (secs `div` 60) ++ Spec.zero_pad2 (secs `mod` 60))%string /\
  String.length (mmss secs) = 4%nat /\
  frame (countdown_step x c) = mmss secs /\
  buffer (display (board (countdown_step x c)))
  = [Spec.digit ((secs `div` 60) `div` 10); Spec.digit ((secs `div` 60) `mod` 10);
     Spec.digit ((secs `mod` 60) `div` 10); Spec.digit ((secs `mod` 60) `mod` 10)].
Proof.
  intros Hs Hl Hsec Hn.
  assert (Hm : mmss secs
               = (Spec.zero_pad2 (secs `div` 60) ++ Spec.zero_pad2 (secs `mod` 60))%string).
  { unfold mmss. rewrite !format_02_two_digits; [done | |].
    - pose proof (Z.mod_pos_bound secs 60). lia.
    - split; [apply Z.div_pos; lia | apply Z.div_lt_upper_bound; lia]. }
  destruct (tick_opens x c Hl) as (_ & _ & F & _ & _ & W & _); [lia |].
  rewrite Hsec in F, W.
  split; [done |]. split; [by rewrite Hm |]. split; [done |].
  rewrite W. unfold write_str. simpl. rewrite Hn, Hm. reflexivity.
Qed.

Lemma frame_is_zero_padded_mmss_witness :
  let c := countdown 754 false (0, 255, 0) (Some (255, 255, 0)) power_up in
  0 <= 754 <= 5999 /\ loc c = AtTick /\ seconds c = 754 /\
  ndigits (display (board c)) = 4%nat /\
  buffer (display (board (countdown_step (idle 3) c))) = ["1"; "2"; "3"; "4"]%char.
Proof.
  intros c.
  assert (H : 0 <= 754 <= 5999) by (split; vm_compute; discriminate).
  pose proof (frame_is_zero_padded_mmss 754 c (idle 3) H eq_refl eq_refl eq_refl)
    as (_ & _ & _ & Hb).
  split; [exact H |]. split; [reflexivity |]. split; [reflexivity |].
  split; [reflexivity | exact Hb].
Defined.

(** The countdown writes cells only: the pins of the display are left alone. *)
Lemma digits_step (x : Sample) (c : Countdown) :
  digits (display (board (countdown_step x c))) = digits (display (board c)).
Proof. step_cases c x; done. Qed.

Lemma digits_run (xs : list Sample) (c : Countdown) :
  digits (display (board (countdown_run xs c))) = digits (display (board c)).
Proof.
  revert c. induction xs as [|x xs IH]; intros c; simpl; [done |].
  by rewrite IH, digits_step.
Qed.

(** One pass of the blink loop in the PAUSED state. *)
Lemma paused_step (x : Sample) (c : Countdown) :
  is_paused c ->
  let now := ticks_ms (clock (board c) + Z.of_N (elapsed x)) in
  let blink_on := (now `div` 500) `mod` 2 =? 0 in
  let c' := countdown_step x c in
  seconds c' = seconds c /\ frame c' = frame c /\
  (btn_confirm x <> 0 ->
   is_paused c' /\
   display (board c')
   = if blink_on then write_str (display (board c)) (frame c)
     else clear (display (board c))) /\
  (btn_confirm x = 0 ->
   loc c' = Polling /\ paused_flag c' = false /\
   display (board c') = display (board c)).
Proof.
  intros [Hl Hp]. simpl. unfold countdown_step, is_paused, not_. rewrite Hl, Hp.
  destruct (Z.eqb_spec (btn_confirm x) 0) as [E|E]; simpl.
  - repeat split; done.
  - repeat split; try done.
    destruct (_ =? 0); done.
Qed.

(** While the confirm button is not pressed, the countdown stays PAUSED on
    the same second. *)
Lemma paused_run (ys : list Sample) (c : Countdown) :
  is_paused c -> Forall (fun y => btn_confirm y <> 0) ys ->
  let c' := countdown_run ys c in
  is_paused c' /\ seconds c' = seconds c /\ frame c' = frame c.
Proof.
  intros Hp Hys. revert c Hp.
  induction Hys as [|y ys Hy _ IH]; intros c Hp; simpl; [done |].
  destruct (paused_step y c Hp) as (S & F & Hstay & _).
  destruct (Hstay Hy) as (Hp' & _).
  destruct (IH _ Hp') as (P & S' & F'). repeat split; [apply P.. | congruence | congruence].
Qed.

(** The pass that begins a pause is a poll of the wait loop and leaves the
    seconds as they are. *)
Lemma pause_begins (x : Sample) (c : Countdown) :
  ~ is_paused c -> is_paused (countdown_step x c) ->
  loc c = Polling /\ seconds (countdown_step x c) = seconds c.
Proof.
  unfold is_paused, countdown_step, last_minute. intros Hn.
  destruct (loc c) eqn:Hl.
  - destruct (seconds c >=? 0);
      [destruct (led_color_last_min c);
       [destruct ((seconds c =? 60) && negb (color_changed c)) |] |];
      simpl; intros [? _]; done.
  - destruct (ticks_diff _ _ >? 0); simpl; intros [? ?]; done.
  - destruct (paused_flag c) eqn:Hp; [by destruct Hn |].
    simpl. intros [? _]; done.
  - rewrite Hl. intros [? _]; done.
  - rewrite Hl. intros [? _]; done.
Qed.

(** C8: in the PAUSED state of a phase, a pass of the blink loop keeps the
    seconds and the frame (the MMSS of the seconds); if the confirm button
    is not pressed the countdown stays PAUSED and the display is written
    with the frame when [(now // 500) % 2 == 0] and cleared to four blanks
    otherwise; if it is pressed the countdown is back in the wait loop with
    the pause flag off.  Over any passes without a confirm press the
    seconds do not move, and the confirm press after them resumes with the
    seconds the pause had when it began. *)
Theorem paused_blinks_and_holds (d : Z) (paused : bool) (full : Color)
    (last_min : option Color) (b : Board) (xs ys : list Sample) (x : Sample) :
  0 <= d -> ndigits (display b) = 4%nat ->
  let c := countdown_run xs (countdown d paused full last_min b) in
  is_paused c ->
  let now := ticks_ms (clock (board c) + Z.of_N (elapsed x)) in
  let blink_on := (now `div` 500) `mod` 2 =? 0 in
  let c' := countdown_step x c in
  frame c = mmss (seconds c) /\
  seconds c' = seconds c /\ frame c' = frame c /\
  (btn_confirm x <> 0 ->
   is_paused c' /\
   Some (display (board c'))
   = (if blink_on then write (display (board c)) (Py.PyStr (frame c))
      else Some (clear (display (board c)))) /\
   buffer (display (board c'))
   = if blink_on then Py.list_of_str (fit 4 (frame c))
     else [" "; " "; " "; " "]%char) /\
  (btn_confirm x = 0 -> loc c' = Polling /\ paused_flag c' = false) /\
  (Forall (fun y => btn_confirm y <> 0) ys ->
   let c2 := countdown_run ys c in
   is_paused c2 /\ seconds c2 = seconds c /\
   (btn_confirm x = 0 ->
    loc (countdown_step x c2) = Polling /\
    paused_flag (countdown_step x c2) = false /\
    seconds (countdown_step x c2) = seconds c)) /\
  (forall (c0 : Countdown) (x0 : Sample),
      ~ is_paused c0 -> is_paused (countdown_step x0 c0) ->
      loc c0 = Polling /\ seconds (countdown_step x0 c0) = seconds c0).
Proof.
  intros Hd Hn c Hp now blink_on c'.
  destruct (phase_run d xs (countdown d paused full last_min b)) as (_ & _ & Hf);
    simpl; [lia | done | |].
  { unfold in_tick. simpl. intros [[? | ?] | ?]; done. }
  fold c in Hf. destruct Hf as (_ & Hf); [left; right; apply Hp |].
  destruct (paused_step x c Hp) as (S & F & Hstay & Hgo).
  fold now blink_on c' in S, F, Hstay, Hgo.
  assert (Hn' : ndigits (display (board c)) = 4%nat).
  { unfold ndigits, c. rewrite digits_run. exact Hn. }
  split; [done |]. split; [done |]. split; [done |].
  split; [| split; [| split; [| intros c0 x0; apply pause_begins]]].
  - intros Hx. destruct (Hstay Hx) as (P & D). split; [done |].
    split; [rewrite D; by destruct blink_on |].
    rewrite D. destruct blink_on; unfold write_str, clear; simpl; rewrite Hn'; done.
  - intros Hx. destruct (Hgo Hx) as (L & P & _). done.
  - intros Hys. set (c2 := countdown_run ys c).
    destruct (paused_run ys c Hp Hys) as (P2 & S2 & F2).
    fold c2 in P2, S2, F2. split; [done |]. split; [done |].
    intros Hx. destruct (paused_step x c2 P2) as (S3 & _ & _ & Hgo3).
    destruct (Hgo3 Hx) as (L & P & _). repeat split; [done | done | congruence].
Qed.

Lemma paused_blinks_and_holds_witness :
  let c := countdown_run [idle 0; press_confirm 100]
             (countdown 125 false (0, 255, 0) (Some (255, 255, 0)) power_up) in
  let c2 := countdown_run [idle 100; idle 500; idle 400] c in
  (0 <= 125 /\ ndigits (display power_up) = 4%nat /\ is_paused c) /\
  Forall (fun y => btn_confirm y <> 0) [idle 100; idle 500; idle 400] /\
  is_paused c2 /\
  seconds (countdown_step (press_confirm 0) c2) = 125 /\
  loc (countdown_step (press_confirm 0) c2) = Polling.
Proof.
  intros c c2.
  assert (H0 : 0 <= 125) by (vm_compute; discriminate).
  assert (Hp : is_paused c) by (split; reflexivity).
  assert (Hys : Forall (fun y => btn_confirm y <> 0) [idle 100; idle 500; idle 400])
    by (repeat constructor; vm_compute; discriminate).
  pose proof (paused_blinks_and_holds 125 false (0, 255, 0) (Some (255, 255, 0))
                power_up [idle 0; press_confirm 100] [idle 100; idle 500; idle 400]
                (press_confirm 0) H0 eq_refl Hp)
    as (_ & _ & _ & _ & _ & Hrun & _).
  destruct (Hrun Hys) as (P2 & _ & Hgo).
  destruct (Hgo eq_refl) as (L & _ & S).
  split; [split; [exact H0 | split; [reflexivity | exact Hp]] |].
  split; [exact Hys |]. split; [exact P2 |]. split; [exact S | exact L].
Defined.

End CountdownFacts.

(** ** Properties of [set_times] *)

Module SetTimesFacts.

Import SevenSegment Main Time TimeFacts.

Lemma ticks_diff_same (t : Z) : ticks_diff t t = 0.
Proof. unfold ticks_diff. rewrite Z.sub_diag. reflexivity. Qed.

(** Right after a press is accepted the window is closed. *)
Lemma window_closed (now : Z) : (ticks_diff now now >? debounce) = false.
Proof. rewrite ticks_diff_same. reflexivity. Qed.

(** One pass of the loop of [set_times], by the shared timestamp [last]. *)
Lemma set_times_pass_spec (x : Sample) (s : SetTimes) :
  idx s < 2 ->
  let now := ticks_ms (clock (st_board s) + Z.of_N (elapsed x)) in
  let accepted := snd (set_times_pass x s) in
  let s' := set_times_step x s in
  accepted = (if ticks_diff now (last s) >? debounce then first_pressed x else []) /\
  last s' = (match accepted with [] => last s | _ => now end) /\
  clock (st_board s') = clock (st_board s) + Z.of_N (elapsed x) + 40 /\
  idx s <= idx s' /\
  (Confirm ∉ accepted -> idx s' = idx s).
Proof.
  intros Hi. simpl. unfold set_times_step, set_times_pass.
  destruct (Z.ltb_spec (idx s) 2) as [_|?]; [| lia].
  unfold on_up, on_down, on_confirm, first_pressed, pass, sleep_ms, display_write.
  simpl.
  destruct (ticks_diff _ (last s) >? debounce) eqn:Hopen; simpl.
  - destruct (not_ (btn_up x)); simpl.
    + repeat (rewrite ?window_closed, ?andb_false_r; simpl).
      repeat split; try done; intros; lia.
    + destruct (not_ (btn_down x)); simpl.
      * rewrite Hopen. simpl. repeat (rewrite ?window_closed, ?andb_false_r; simpl).
        repeat split; try done; intros; lia.
      * rewrite Hopen. destruct (not_ (btn_confirm x)); simpl.
        -- repeat split; try done; try lia. intros H. exfalso. apply H. by left.
        -- repeat split; try done; intros; lia.
  - rewrite !andb_false_r. simpl. rewrite Hopen, !andb_false_r. simpl.
    rewrite Hopen, !andb_false_r. simpl. repeat split; try done; intros; lia.
Qed.

Lemma set_times_run_cons x xs s :
  set_times_run (x :: xs) s = set_times_run xs (set_times_step x s).
Proof. reflexivity. Qed.

Lemma set_times_done (x : Sample) (s : SetTimes) :
  2 <= idx s -> set_times_pass x s = (s, []).
Proof.
  intros Hi. unfold set_times_pass.
  destruct (Z.ltb_spec (idx s) 2); [lia | done].
Qed.

Lemma set_times_clock_step (x : Sample) (s : SetTimes) :
  clock (st_board s) <= clock (st_board (set_times_step x s)).
Proof.
  destruct (Z_lt_le_dec (idx s) 2) as [Hi|Hi].
  - destruct (set_times_pass_spec x s Hi) as (_ & _ & K & _). lia.
  - unfold set_times_step. rewrite set_times_done by done. simpl. lia.
Qed.

Lemma set_times_clock_run (xs : list Sample) (s : SetTimes) :
  clock (st_board s) <= clock (st_board (set_times_run xs s)).
Proof.
  revert s. induction xs as [|x xs IH]; intros s; simpl; [lia |].
  etrans; [apply (set_times_clock_step x) | apply IH].
Qed.

(** A run that accepts nothing leaves the timestamp and the field index. *)
Lemma set_times_nothing_accepted (xs : list Sample) (s : SetTimes) :
  Forall (eq []) (set_times_events xs s) ->
  last (set_times_run xs s) = last s /\ idx (set_times_run xs s) = idx s.
Proof.
  revert s. induction xs as [|x xs IH]; intros s; simpl; [done |].
  intros H. apply Forall_cons in H as [Hx Hxs].
  destruct (IH _ Hxs) as (L & I). fold (set_times_run xs (set_times_step x s)).
  rewrite L, I.
  destruct (Z_lt_le_dec (idx s) 2) as [Hi|Hi].
  - destruct (set_times_pass_spec x s Hi) as (_ & L' & _ & _ & I').
    rewrite <- Hx in L', I'. split; [done |]. apply I'. apply not_elem_of_nil.
  - unfold set_times_step. rewrite set_times_done by done. done.
Qed.

(** Within the window after the time [T] of the last accepted press, no
    press of any button is accepted. *)
Lemma set_times_window (T : Z) (xs : list Sample) (s : SetTimes) :
  last s = ticks_ms T -> T <= clock (st_board s) ->
  clock (st_board (set_times_run xs s)) <= T + debounce + 40 ->
  Forall (eq []) (set_times_events xs s).
Proof.
  revert s. induction xs as [|x xs IH]; intros s HT Hle Hend; simpl; [constructor |].
  rewrite set_times_run_cons in Hend.
  pose proof (set_times_clock_run xs (set_times_step x s)) as Hmono.
  destruct (Z_lt_le_dec (idx s) 2) as [Hi|Hi].
  - destruct (set_times_pass_spec x s Hi) as (A & L & K & _).
    assert (Hclosed : (ticks_diff (ticks_ms (clock (st_board s) + Z.of_N (elapsed x)))
                         (last s) >? debounce) = false).
    { rewrite HT, ticks_diff_ms.
      - rewrite Z.gtb_ltb. apply Z.ltb_ge. lia.
      - change (TICKS_PERIOD `div` 2) with 536870912. unfold debounce in *. lia. }
    rewrite Hclosed in A. rewrite A in L.
    constructor; [done |]. apply IH; [congruence | lia | done].
  - unfold set_times_step in *. rewrite set_times_done in * by done. simpl in *.
    constructor; [done |]. apply IH; done.
Qed.

Lemma set_times_run_snoc xs x s :
  set_times_run (xs ++ [x]) s = set_times_step x (set_times_run xs s).
Proof. unfold set_times_run. by rewrite foldl_snoc. Qed.

Lemma first_pressed_spec (x : Sample) :
  (length (first_pressed x) <= 1)%nat /\
  forall b, b ∈ first_pressed x -> pressed b x = true.
Proof.
  unfold first_pressed.
  destruct (not_ (btn_up x)) eqn:Hu; [| destruct (not_ (btn_down x)) eqn:Hd;
    [| destruct (not_ (btn_confirm x)) eqn:Hc]]; simpl; (split; [lia |]);
    intros b Hb; try (by apply elem_of_nil in Hb);
    apply list_elem_of_singleton in Hb; subst b; simpl; done.
Qed.

(** C7, as the code has it: the three buttons share one timestamp [last].
    In a pass a press is accepted only if the button reads pressed and
    [ticks_diff(now, last)] exceeds the debounce time of 500 ms, at most one
    press is accepted per pass (the first pressed of up, down, confirm), and
    accepting it sets [last] to [now].  So after an accepted press, no
    press of any button polled within 500 ms of it is accepted, and the
    first press polled more than 500 ms (and less than half the tick
    period) after it is accepted, provided no press of any button was
    accepted in between. *)
Theorem debounce_shares_one_timestamp (s : SetTimes) (x y : Sample)
    (xs : list Sample) :
  idx s < 2 ->
  let now := ticks_ms (clock (st_board s) + Z.of_N (elapsed x)) in
  let accepted := snd (set_times_pass x s) in
  let s1 := set_times_step x s in
  let s2 := set_times_run xs s1 in
  let gap := clock (st_board s2) + Z.of_N (elapsed y)
             - (clock (st_board s) + Z.of_N (elapsed x)) in
  accepted = (if ticks_diff now (last s) >? debounce then first_pressed x else []) /\
  (forall b, b ∈ accepted ->
             pressed b x = true /\ ticks_diff now (last s) > debounce) /\
  (length accepted <= 1)%nat /\
  last s1 = (match accepted with [] => last s | _ => now end) /\
  (accepted <> [] ->
   (gap <= debounce -> Forall (eq []) (set_times_events (xs ++ [y]) s1)) /\
   (debounce < gap < TICKS_PERIOD `div` 2 ->
    Forall (eq []) (set_times_events xs s1) -> idx s1 < 2 ->
    snd (set_times_pass y s2) = first_pressed y)).
Proof.
  intros Hi now accepted s1 s2 gap.
  destruct (set_times_pass_spec x s Hi) as (A & L & K & _).
  fold now accepted s1 in A, L, K.
  destruct (first_pressed_spec x) as (Hlen & Hpressed).
  split; [done |]. split; [| split; [| split; [done |]]].
  - intros b Hb. rewrite A in Hb.
    destruct (ticks_diff now (last s) >? debounce) eqn:Hopen.
    + split; [auto |]. rewrite Z.gtb_ltb in Hopen. apply Z.ltb_lt in Hopen. lia.
    + by apply elem_of_nil in Hb.
  - rewrite A. destruct (ticks_diff now (last s) >? debounce); simpl; lia.
  - intros Hacc.
    assert (HL : last s1 = ticks_ms (clock (st_board s) + Z.of_N (elapsed x))).
    { rewrite L. destruct accepted; done. }
    split.
    + intros Hgap.
      apply (set_times_window (clock (st_board s) + Z.of_N (elapsed x)));
        [done | lia |].
      rewrite set_times_run_snoc. fold s2.
      destruct (Z_lt_le_dec (idx s2) 2) as [Hi2|Hi2].
      * destruct (set_times_pass_spec y s2 Hi2) as (_ & _ & K2 & _). lia.
      * unfold set_times_step. rewrite set_times_done by done. simpl.
        pose proof (N2Z.is_nonneg (elapsed y)). lia.
    + intros Hgap Hnone Hi1.
      destruct (set_times_nothing_accepted xs s1 Hnone) as (L2 & I2).
      fold s2 in L2, I2.
      destruct (set_times_pass_spec y s2) as (A2 & _); [lia |].
      change (TICKS_PERIOD `div` 2) with 536870912 in Hgap.
      unfold gap, debounce in Hgap.
      rewrite A2, L2, HL, ticks_diff_ms;
        [| change (TICKS_PERIOD `div` 2) with 536870912; lia].
      fold gap. destruct (Z.gtb_spec gap debounce); [done |].
      unfold gap, debounce in *. lia.
Qed.

(** The theorem at the start of the configuration loop: up is accepted
    600 ms in; it is not accepted again 480 ms later, and is accepted again
    560 ms after it was first accepted. *)
Lemma debounce_shares_one_timestamp_witness :
  let s := set_times power_up in
  idx s < 2 /\
  snd (set_times_pass (press_up 600) s) = [Up] /\
  Forall (eq []) (set_times_events ([idle 100] ++ [press_up 300])
                    (set_times_step (press_up 600) s)) /\
  snd (set_times_pass (press_up 380)
         (set_times_run [idle 100] (set_times_step (press_up 600) s))) = [Up].
Proof.
  intros s.
  assert (Hi : idx s < 2) by reflexivity.
  pose proof (debounce_shares_one_timestamp s (press_up 600) (press_up 300)
                [idle 100] Hi) as (A & _ & _ & _ & Hafter).
  pose proof (debounce_shares_one_timestamp s (press_up 600) (press_up 380)
                [idle 100] Hi) as (_ & _ & _ & _ & Hafter').
  destruct Hafter as (Hin & _); [rewrite A; vm_compute; discriminate |].
  destruct Hafter' as (_ & Hout); [rewrite A; vm_compute; discriminate |].
  split; [exact Hi |]. split; [exact A |]. split.
  - apply Hin. vm_compute. discriminate.
  - apply Hout.
    + split; vm_compute; reflexivity.
    + repeat constructor.
    + reflexivity.
Defined.

(** C7 fails as stated: up is accepted at 600 ms, down at 1140 ms, and the
    press of up at 1240 ms, 640 ms after the last accepted press of up, is
    dropped because down moved the shared timestamp; with a timestamp per
    button it is accepted. *)
Lemma shared_timestamp_drops_press :
  set_times_events [press_up 600; press_down 500; press_up 60] (set_times power_up)
  = [[Up]; [Down]; []] /\
  Spec.per_button_events [press_up 600; press_down 500; press_up 60] (clock power_up)
    {| Spec.last_edge_up := ticks_ms (clock power_up);
       Spec.last_edge_down := ticks_ms (clock power_up);
       Spec.last_edge_confirm := ticks_ms (clock power_up) |}
  = [[Up]; [Down]; [Up]] /\
  ~ Spec.debounced_per_button.
Proof.
  split; [reflexivity |]. split; [reflexivity |].
  intros H.
  specialize (H [press_up 600; press_down 500; press_up 60] power_up).
  vm_compute in H. discriminate.
Qed.

End SetTimesFacts.

(** ** Properties of [main] *)

Module MainFacts.

Import SevenSegment Main Time TimeFacts CountdownFacts.

(** A poll of the wait loop before the deadline with the reset button
    pressed enters [main()], whatever the confirm button reads. *)
Lemma reset_polled (x : Sample) (c : Countdown) :
  loc c = Polling ->
  ticks_diff (end_time c) (ticks_ms (clock (board c) + Z.of_N (elapsed x))) > 0 ->
  btn_reset x = 0 ->
  loc (countdown_step x c) = Restart /\
  seconds (countdown_step x c) = seconds c /\
  led_calls (board (countdown_step x c)) = led_calls (board c) /\
  jingle_calls (board (countdown_step x c)) = jingle_calls (board c).
Proof.
  intros Hl Hd Hr. unfold countdown_step, pass, sleep_ms, not_. rewrite Hl, Hr.
  simpl. destruct (Z.gtb_spec (ticks_diff (end_time c)
                     (ticks_ms (clock (board c) + Z.of_N (elapsed x)))) 0); [| lia].
  simpl. destruct (btn_confirm x =? 0); done.
Qed.

(** The wait loop reads the reset button: in the work or the rest
    countdown, a pass of the wait loop that polls before the deadline and
    reads the reset button pressed enters [main()], whatever the confirm
    button reads in that pass: the countdown that was running makes no
    further pass, and the program is in the configuration step of a new
    call of [main], nested one deeper, with the purple LED call and the
    intro jingle started on top of what went before, study 25, rest 5 and
    field 0.  (The model puts no bound on the nesting; the interpreter
    does.) *)
Theorem reset_restarts_while_polling (p : Program) (study_secs rest_secs : Z)
    (c : Countdown) (x y : Sample) :
  phase p = Working study_secs rest_secs c \/
  phase p = Resting study_secs rest_secs c ->
  loc c = Polling ->
  ticks_diff (end_time c) (ticks_ms (clock (board c) + Z.of_N (elapsed x))) > 0 ->
  btn_reset x = 0 ->
  let c1 := countdown_step x c in
  let p1 := main_step x p in
  let p2 := main_step y p1 in
  loc c1 = Restart /\
  (phase p1 = Working study_secs rest_secs c1 \/
   phase p1 = Resting study_secs rest_secs c1) /\
  countdown_step y c1 = c1 /\
  p2 = main (board c1) (S (nested p)) /\
  exists s : SetTimes,
    phase p2 = Configuring s /\ study s = 25 /\ rest s = 5 /\ idx s = 0 /\
    set_times_result s = None /\
    led_calls (st_board s) = (35, 91, 121) :: led_calls (board c) /\
    jingle_calls (st_board s) = intro_jingle :: jingle_calls (board c).
Proof.
  intros Hp Hl Hd Hr c1 p1 p2.
  destruct (reset_polled x c Hl Hd Hr) as (L1 & _ & LED & JIN).
  fold c1 in L1, LED, JIN.
  assert (Hp1 : (phase p1 = Working study_secs rest_secs c1 \/
                 phase p1 = Resting study_secs rest_secs c1) /\
                nested p1 = nested p).
  { unfold p1, main_step. destruct Hp as [-> | ->]; rewrite Hl; simpl; auto. }
  destruct Hp1 as (Hp1 & Hn1).
  assert (Hp2 : p2 = main (board c1) (S (nested p))).
  { unfold p2, main_step. destruct Hp1 as [-> | ->]; rewrite L1, Hn1; done. }
  split; [done |]. split; [done |]. split.
  { unfold countdown_step. rewrite L1. done. }
  split; [done |].
  rewrite Hp2. unfold main. simpl. eexists. split; [reflexivity |].
  simpl. rewrite LED, JIN. repeat split; done.
Qed.

(** The theorem at the first poll of the work countdown after the
    default configuration was confirmed. *)
Lemma reset_restarts_while_polling_witness :
  let p := main_run [press_confirm 600; press_confirm 600; idle 0; idle 0]
             (main power_up 0) in
  let c := countdown_step (idle 0)
             (countdown 1500 false (0, 255, 0) (Some (255, 255, 0))
                (sleep_ms 300 (play_jingle work_jingle (update_led (0, 255, 0)
                   (st_board (set_times_run [press_confirm 600; press_confirm 600]
                                (set_times (play_jingle intro_jingle
                                   (update_led (35, 91, 121) power_up))))))))) in
  phase p = Working 1500 300 c /\ loc c = Polling /\
  btn_reset (press_reset 200) = 0 /\
  main_run [press_reset 200; idle 0] p = main (board (countdown_step (press_reset 200) c)) 1.
Proof.
  intros p c.
  assert (Hp : phase p = Working 1500 300 c) by reflexivity.
  assert (Hl : loc c = Polling) by reflexivity.
  assert (Hd : ticks_diff (end_time c)
                 (ticks_ms (clock (board c) + Z.of_N (elapsed (press_reset 200)))) > 0)
    by reflexivity.
  pose proof (reset_restarts_while_polling p 1500 300 c (press_reset 200) (idle 0)
                (or_introl Hp) Hl Hd eq_refl) as (_ & _ & _ & H2 & _).
  split; [exact Hp |]. split; [exact Hl |]. split; [reflexivity |]. exact H2.
Defined.

(** C2: the reset is missed in the PAUSED state.  The countdown of the
    work session is paused by a confirm press, and the reset button is then
    held for a hundred passes of the blink loop, which does not poll it:
    the program is still in the same paused countdown, and [main()] has not
    been entered.  From the same start, the wait loop that polls the same
    reset press enters [main()]: the program is in the configuration step
    of a new call, with the defaults 25 and 5. *)
Lemma reset_ignored_while_paused :
  let start := main_run [press_confirm 600; press_confirm 600; idle 0; idle 0]
                 (main power_up 0) in
  let p := main_run [press_confirm 100] start in
  let p' := main_run (replicate 100 (press_reset 50)) p in
  let q := main_run [press_reset 50; idle 0] start in
  (match phase p, phase p' with
   | Working _ _ c, Working _ _ c' =>
       is_paused c /\ is_paused c' /\ seconds c' = seconds c /\
       loc c' <> Restart /\ jingle_calls (board c') = jingle_calls (board c)
   | _, _ => False
   end /\
   nested p' = 0%nat) /\
  match phase start, phase q with
  | Working _ _ c, Configuring s =>
      loc c = Polling /\ nested q = 1%nat /\
      study s = 25 /\ rest s = 5 /\ idx s = 0 /\
      jingle_calls (st_board s) = intro_jingle :: jingle_calls (board c)
  | _, _ => False
  end.
Proof.
  vm_compute. repeat split; try reflexivity; discriminate.
Qed.

End MainFacts.
(** ** More properties of the display driver *)

Module SevenSegmentMore.

Import SevenSegment SevenSegmentFacts.

Local Arguments dict_get : simpl never.

(** X1: [set_decimal_point] with a position outside [0, 4), negative ones
    included, changes nothing; with a position inside it sets the dot flag
    of that digit and no other, and leaves the cells, the pins and the
    cursor alone. *)
Theorem set_decimal_point_guarded (ks : list Call) (self : SevenSegmentDisplay)
    (position : Z) (state : bool) :
  calls ks init = Some self ->
  let self' := set_decimal_point self position state in
  (position < 0 \/ 4 <= position -> self' = self) /\
  (0 <= position < 4 ->
   dotmask self' !! Z.to_nat position = Some state /\
   forall j : nat, j <> Z.to_nat position -> dotmask self' !! j = dotmask self !! j) /\
  length (dotmask self') = 4%nat /\
  buffer self' = buffer self /\ digits self' = digits self /\
  segments self' = segments self /\ dp self' = dp self /\
  current_digit self' = current_digit self.
Proof.
  intros Hreach.
  pose proof (calls_well_formed ks init self init_well_formed Hreach)
    as (_ & Hd & _ & Hm & _).
  simpl. unfold set_decimal_point, ndigits. rewrite Hd.
  destruct (Z.leb_spec 0 position) as [H0|H0];
    destruct (Z.ltb_spec position (Z.of_nat 4)) as [H4|H4]; simpl.
  2-4: (split; [done |]); (split; [lia |]); done.
  split; [lia |]. split; [| by rewrite length_insert].
  intros _. split.
  - apply list_lookup_insert_eq. lia.
  - intros j Hj. by apply list_lookup_insert_ne.
Qed.

Lemma set_decimal_point_guarded_witness :
  calls [CallWrite (Py.PyStr "12")] init = Some (write_str init "12") /\
  set_decimal_point (write_str init "12") 4 true = write_str init "12" /\
  dotmask (set_decimal_point (write_str init "12") 1 true) !! 1%nat = Some true.
Proof.
  pose proof (set_decimal_point_guarded [CallWrite (Py.PyStr "12")]
                (write_str init "12") 4 true eq_refl) as (Hout & _).
  pose proof (set_decimal_point_guarded [CallWrite (Py.PyStr "12")]
                (write_str init "12") 1 true eq_refl) as (_ & Hin & _).
  split; [reflexivity |]. split.
  - apply Hout. right. vm_compute. discriminate.
  - apply Hin. split; vm_compute; [discriminate | reflexivity].
Defined.

(** Text that was fitted to [n] characters fits as it is. *)
Lemma fit_again (n : nat) (text : string) :
  fit n (fit n text) = fit n text.
Proof.
  pose proof (length_fit n text) as Hlen. rewrite length_list_of_str in Hlen.
  unfold fit at 1. rewrite Hlen, Nat.ltb_irrefl. done.
Qed.

(** X2: after a [write] that returned, the cells hold exactly as many
    characters as there are digits, and writing back the text read from
    them leaves the instance as it is: what is shown is not padded or cut a
    second time. *)
Theorem write_back_changes_nothing (self self' : SevenSegmentDisplay)
    (text : Py.value) :
  write self text = Some self' ->
  length (buffer self') = ndigits self /\
  write self' (Py.PyStr (string_of_list_ascii (buffer self'))) = Some self' /\
  write self (Py.PyStr (string_of_list_ascii (buffer self'))) = Some self'.
Proof.
  unfold write. destruct (Py.str text) as [shown|]; simpl; [| done].
  intros [= <-]. unfold write_str, ndigits. simpl. split; [apply length_fit |].
  unfold Py.list_of_str. rewrite string_of_list_ascii_of_string, fit_again. done.
Qed.

Lemma write_back_changes_nothing_witness :
  exists self',
    write init (Py.PyInt 12345) = Some self' /\
    buffer self' = ["1"; "2"; "3"; "4"]%char /\
    write self' (Py.PyStr "1234") = Some self'.
Proof.
  exists (write_str init "12345").
  assert (E : write init (Py.PyInt 12345) = Some (write_str init "12345"))
    by reflexivity.
  destruct (write_back_changes_nothing init (write_str init "12345")
              (Py.PyInt 12345) E) as (_ & Hback & _).
  split; [exact E |]. split; [reflexivity | exact Hback].
Defined.

(** Reading a list by its indices visits its elements in order. *)
Lemma mapM_indices {A B : Type} (f : A -> B) (pre l : list A) :
  mapM (fun i : nat => a ← (pre ++ l) !! i; Some (f a)) (seq (length pre) (length l))
  = Some (f <$> l).
Proof.
  revert pre. induction l as [|a l IH]; intros pre; [done |].
  simpl. rewrite lookup_app_r, Nat.sub_diag by lia. simpl.
  specialize (IH (pre ++ [a])). rewrite <- app_assoc, length_app in IH. simpl in IH.
  rewrite Nat.add_1_r in IH. rewrite IH. done.
Qed.

Lemma mapM_all_indices {A B : Type} (f : A -> B) (l : list A) :
  mapM (fun i : nat => a ← l !! i; Some (f a)) (seq 0 (length l)) = Some (f <$> l).
Proof. exact (mapM_indices f [] l). Qed.

(** X3: after an invocation of [_refresh] the digit under the old cursor is
    the one lit, the segment lines carry the pattern of the character in
    its cell (all off for a character that has no pattern), the
    decimal-point line carries its dot flag, and the cells and the dot
    flags are as before. *)
Theorem refresh_shows_cell (ks : list Call) (self : SevenSegmentDisplay) :
  calls ks init = Some self ->
  exists (self' : SevenSegmentDisplay) (ch : ascii) (dot : bool),
    _refresh self = Some self' /\
    buffer self !! Z.to_nat (current_digit self) = Some ch /\
    dotmask self !! Z.to_nat (current_digit self) = Some dot /\
    lit self' = [Z.to_nat (current_digit self)] /\
    segments self'
    = (fun bit => if bit =? 0 then SEGMENT_OFF else SEGMENT_ON)
        <$> dict_get patterns ch [0; 0; 0; 0; 0; 0; 0] /\
    dp self' = (if dot then SEGMENT_ON else SEGMENT_OFF) /\
    buffer self' = buffer self /\ dotmask self' = dotmask self.
Proof.
  intros Hreach.
  pose proof (calls_well_formed ks init self init_well_formed Hreach) as Hwf.
  destruct (refresh_ok self Hwf)
    as (s1 & s2 & s3 & E1 & E2 & E3 & E & _ & _ & _ & L & _ & _).
  destruct (refresh_deselect_ok self Hwf) as (s1' & E1' & _ & B1 & M1 & S1 & C1 & _).
  rewrite E1 in E1'. injection E1' as <-.
  destruct Hwf as (Hs & Hd & Hb & Hm & Hc & _).
  destruct (lookup_lt_is_Some_2 (buffer self) (Z.to_nat (current_digit self)))
    as [ch Hch]; [lia |].
  destruct (lookup_lt_is_Some_2 (dotmask self) (Z.to_nat (current_digit self)))
    as [dot Hdot]; [lia |].
  exists (refresh_advance s3), ch, dot.
  split; [done |]. split; [done |]. split; [done |]. split; [done |].
  revert E2. unfold refresh_segments, index. rewrite C1, B1, M1, S1.
  destruct (Z.ltb_spec (current_digit self) 0) as [?|_]; [lia |].
  rewrite Hch, Hdot. simpl.
  change (dict_get patterns " "%char []) with [0; 0; 0; 0; 0; 0; 0].
  pose proof (length_pattern ch) as Hpat.
  change (dict_get patterns " "%char []) with [0; 0; 0; 0; 0; 0; 0] in Hpat.
  rewrite Hs, <- Hpat.
  rewrite (mapM_all_indices (fun bit => if bit =? 0 then SEGMENT_OFF else SEGMENT_ON)).
  simpl. intros [= <-].
  revert E3. unfold refresh_select. simpl.
  destruct (drive (digits s1) (current_digit self) DIGIT_ON); simpl; [| done].
  intros [= <-]. simpl. done.
Qed.

Lemma refresh_shows_cell_witness :
  exists self',
    calls [CallWrite (Py.PyStr "7"); CallSetDecimalPoint 0 true] init
    = Some (set_decimal_point (write_str init "7") 0 true) /\
    _refresh (set_decimal_point (write_str init "7") 0 true) = Some self' /\
    segments self' = [1; 1; 1; 0; 0; 0; 0] /\ dp self' = 1.
Proof.
  destruct (refresh_shows_cell [CallWrite (Py.PyStr "7"); CallSetDecimalPoint 0 true]
              (set_decimal_point (write_str init "7") 0 true) eq_refl)
    as (self' & ch & dot & E & Hch & Hdot & _ & S & D & _).
  exists self'. split; [reflexivity |]. split; [exact E |].
  injection Hch as <-. injection Hdot as <-. split; [exact S | exact D].
Defined.

(** A key that is missing from a dict gets the default. *)
Lemma dict_get_missing {V : Type} (d : list (ascii * V)) (ch : ascii) (default : V) :
  ch ∉ d.*1 -> dict_get d ch default = default.
Proof.
  induction d as [|[k v] d IH]; [done |].
  change (dict_get ((k, v) :: d) ch default)
    with (if Ascii.eqb k ch then v else dict_get d ch default).
  simpl. intros Hch. apply not_elem_of_cons in Hch as [Hne Hch].
  destruct (Ascii.eqb_spec k ch) as [->|_]; [done | auto].
Qed.

(** X4: the pattern table has no key twice; a character that is not a key
    gets the blank pattern; and two keys with the same pattern are the same
    character, so the segments lit tell the character shown. *)
Theorem patterns_unambiguous (a b : ascii) :
  NoDup patterns.*1 /\
  (a ∉ patterns.*1 ->
   dict_get patterns a (dict_get patterns " "%char []) = [0; 0; 0; 0; 0; 0; 0]) /\
  (a ∈ patterns.*1 -> b ∈ patterns.*1 ->
   dict_get patterns a (dict_get patterns " "%char [])
   = dict_get patterns b (dict_get patterns " "%char []) ->
   a = b).
Proof.
  split; [by apply (bool_decide_unpack _) |]. split.
  - intros Ha. by rewrite dict_get_missing.
  - unfold patterns at 1 2. simpl. intros Ha Hb.
    repeat match goal with
           | H : _ ∈ _ :: _ |- _ => apply elem_of_cons in H as [-> | H]
           | H : _ ∈ [] |- _ => by apply elem_of_nil in H
           end; vm_compute; intros; congruence.
Qed.

Lemma patterns_unambiguous_witness :
  ("x"%char ∉ patterns.*1) /\
  dict_get patterns "x"%char (dict_get patterns " "%char []) = [0; 0; 0; 0; 0; 0; 0].
Proof.
  assert (H : "x"%char ∉ patterns.*1) by (by apply (bool_decide_unpack _)).
  split; [exact H |].
  exact (proj1 (proj2 (patterns_unambiguous "x" "x")) H).
Defined.

Lemma calls_cursor (more : list Call) (self : SevenSegmentDisplay) :
  well_formed self ->
  exists self', calls more self = Some self' /\ well_formed self' /\
    current_digit self'
    = (current_digit self + Z.of_nat (refreshes more)) `mod` 4.
Proof.
  revert self. induction more as [|k more IH]; intros self Hwf.
  - exists self. split; [done |]. split; [done |].
    destruct Hwf as (_ & _ & _ & _ & Hc & _). simpl.
    rewrite Z.add_0_r, Z.mod_small by lia. done.
  - destruct (call_well_formed k self Hwf) as (s & E & W).
    destruct (IH s W) as (self' & E' & W' & C').
    exists self'. simpl. rewrite E. simpl. split; [done |]. split; [done |].
    rewrite C'. destruct k as [| text | position state |].
    1-3: match type of E with
         | call ?k _ = _ =>
             destruct (call_keeps_pins k self s) as (_ & ->); [done | exact E |]
         end; done.
    destruct (refresh_ok self Hwf) as (s1 & s2 & s3 & _ & _ & _ & E2 & _ & _ & _ & _ & C & _).
    simpl in E. rewrite E2 in E. injection E as <-. rewrite C.
    rewrite Zplus_mod_idemp_l. f_equal. lia.
Qed.

(** X5: from an instance reached from [__init__], no sequence of method
    calls and timer callbacks can fail with an index out of range; the
    buffer and the dot mask keep four entries, and the cursor moves by the
    number of [_refresh] invocations modulo 4, whatever was written in
    between: after a multiple of four it is back where it was. *)
Theorem calls_never_fail (ks more : list Call) (self : SevenSegmentDisplay) :
  calls ks init = Some self ->
  exists self',
    calls more self = Some self' /\
    length (buffer self') = 4%nat /\ length (dotmask self') = 4%nat /\
    current_digit self' = (current_digit self + Z.of_nat (refreshes more)) `mod` 4 /\
    ((refreshes more `mod` 4 = 0)%nat -> current_digit self' = current_digit self).
Proof.
  intros Hreach.
  pose proof (calls_well_formed ks init self init_well_formed Hreach) as Hwf.
  destruct (calls_cursor more self Hwf) as (self' & E & W & C).
  exists self'. destruct W as (_ & _ & Hb & Hm & _).
  destruct Hwf as (_ & _ & _ & _ & Hc & _).
  repeat split; try done.
  intros Hfour. rewrite C.
  assert (Z.of_nat (refreshes more) `mod` 4 = 0) as Hz.
  { rewrite <- (Nat2Z.inj_mod _ 4), Hfour. done. }
  rewrite <- Zplus_mod_idemp_r, Hz, Z.add_0_r, Z.mod_small by lia. done.
Qed.

Lemma calls_never_fail_witness :
  exists self',
    calls [CallRefresh] init = Some (refresh_advance
      {| segments := [0; 0; 0; 0; 0; 0; 0]; digits := [0; 1; 1; 1]; dp := 0;
         buffer := [" "; " "; " "; " "]%char; dotmask := [false; false; false; false];
         current_digit := 0 |}) /\
    calls [CallRefresh; CallWrite (Py.PyInt 42); CallRefresh; CallRefresh; CallClear;
           CallRefresh]
      (refresh_advance
      {| segments := [0; 0; 0; 0; 0; 0; 0]; digits := [0; 1; 1; 1]; dp := 0;
         buffer := [" "; " "; " "; " "]%char; dotmask := [false; false; false; false];
         current_digit := 0 |}) = Some self' /\
    current_digit self' = 1.
Proof.
  destruct (calls_never_fail [CallRefresh]
              [CallRefresh; CallWrite (Py.PyInt 42); CallRefresh; CallRefresh; CallClear;
               CallRefresh] _ eq_refl) as (self' & E & _ & _ & _ & Hback).
  exists self'. split; [reflexivity |]. split; [exact E |].
  exact (Hback eq_refl).
Defined.

End SevenSegmentMore.

(** ** More properties of [set_times] *)

Module SetTimesMore.

Import SevenSegment SevenSegmentFacts Main Time TimeFacts CountdownFacts SetTimesFacts Edit.

(** One pass changes the settings as its accepted presses say. *)
Lemma settings_pass (x : Sample) (s : SetTimes) :
  settings (set_times_step x s) = foldl edit (settings s) (snd (set_times_pass x s)).
Proof.
  unfold set_times_step, set_times_pass, settings.
  destruct (idx s <? 2); [| done].
  cbv zeta.
  generalize (display_write
                (edit_frame s (ticks_ms (clock (pass x (st_board s)))))
                (pass x (st_board s))) as b1.
  generalize (ticks_ms (clock (pass x (st_board s)))) as now.
  intros now b1. unfold on_up, on_down, on_confirm. simpl.
  destruct (idx s =? 0) eqn:E0;
    destruct (not_ (btn_up x) && _); simpl;
    destruct (not_ (btn_down x) && _); simpl;
    destruct (not_ (btn_confirm x) && _); simpl;
    rewrite ?E0; simpl; rewrite ?E0; reflexivity.
Qed.

Lemma settings_run (xs : list Sample) (s : SetTimes) :
  settings (set_times_run xs s)
  = foldl edit (settings s) (concat (set_times_events xs s)).
Proof.
  revert s. induction xs as [|x xs IH]; intros s; [done |].
  simpl. rewrite foldl_app, <- settings_pass. apply IH.
Qed.

(** An accepted press keeps the minutes in range and on the 5-minute grid. *)
Lemma edit_in_range (v : Z * Z * Z) (b : Button) :
  (0 <= v.1.1 <= 95 /\ (5 | v.1.1)) -> (0 <= v.1.2 <= 95 /\ (5 | v.1.2)) ->
  (0 <= (edit v b).1.1 <= 95 /\ (5 | (edit v b).1.1)) /\
  (0 <= (edit v b).1.2 <= 95 /\ (5 | (edit v b).1.2)).
Proof.
  destruct v as [[st re] i]. simpl. intros (Hs & ks & ->) (Hr & kr & ->).
  destruct b; simpl; destruct (i =? 0); simpl;
    repeat split; try lia;
    try (by exists ks); try (by exists kr).
  - destruct (Z.min_spec (ks * 5 + 5) 95) as [[_ ->] | [_ ->]];
      [exists (ks + 1); lia | exists 19; lia].
  - destruct (Z.min_spec (kr * 5 + 5) 95) as [[_ ->] | [_ ->]];
      [exists (kr + 1); lia | exists 19; lia].
  - destruct (Z.max_spec (ks * 5 - 5) 0) as [[_ ->] | [_ ->]];
      [exists 0; lia | exists (ks - 1); lia].
  - destruct (Z.max_spec (kr * 5 - 5) 0) as [[_ ->] | [_ ->]];
      [exists 0; lia | exists (kr - 1); lia].
Qed.

(** The presses one pass accepts: none, or one. *)
Lemma accepted_cases (x : Sample) (s : SetTimes) :
  snd (set_times_pass x s) = [] \/
  (idx s < 2 /\ exists b, snd (set_times_pass x s) = [b]).
Proof.
  destruct (Z_lt_le_dec (idx s) 2) as [Hi|Hi].
  - destruct (set_times_pass_spec x s Hi) as (-> & _).
    destruct (_ >? debounce); [| by left]. unfold first_pressed.
    destruct (not_ (btn_up x)); [right; eauto |].
    destruct (not_ (btn_down x)); [right; eauto |].
    destruct (not_ (btn_confirm x)); [right; eauto | by left].
  - left. by rewrite set_times_done.
Qed.

Lemma in_range_step (x : Sample) (s : SetTimes) :
  (0 <= study s <= 95 /\ (5 | study s)) -> (0 <= rest s <= 95 /\ (5 | rest s)) ->
  0 <= idx s <= 2 ->
  let s' := set_times_step x s in
  (0 <= study s' <= 95 /\ (5 | study s')) /\ (0 <= rest s' <= 95 /\ (5 | rest s')) /\
  0 <= idx s' <= 2.
Proof.
  intros Hs Hr Hi. simpl.
  pose proof (settings_pass x s) as E. unfold settings in E.
  destruct (accepted_cases x s) as [Hn | (Hlt & b & Hb)].
  - rewrite Hn in E. simpl in E. injection E as -> -> ->. done.
  - rewrite Hb in E. change (foldl edit ?v [b]) with (edit v b) in E.
    pose proof (edit_in_range (study s, rest s, idx s) b Hs Hr) as (Hs' & Hr').
    assert (Hidx : (edit (study s, rest s, idx s) b).2 <= 2 /\
                   0 <= (edit (study s, rest s, idx s) b).2).
    { destruct b; simpl; destruct (idx s =? 0); simpl; lia. }
    destruct (edit (study s, rest s, idx s) b) as [[st re] i].
    injection E as -> -> ->. simpl in *. split; [done |]. split; [done | lia].
Qed.

Lemma in_range_run (xs : list Sample) (s : SetTimes) :
  (0 <= study s <= 95 /\ (5 | study s)) -> (0 <= rest s <= 95 /\ (5 | rest s)) ->
  0 <= idx s <= 2 ->
  let s' := set_times_run xs s in
  (0 <= study s' <= 95 /\ (5 | study s')) /\ (0 <= rest s' <= 95 /\ (5 | rest s')) /\
  0 <= idx s' <= 2.
Proof.
  revert s. induction xs as [|x xs IH]; intros s Hs Hr Hi; simpl; [done |].
  destruct (in_range_step x s Hs Hr Hi) as (Hs' & Hr' & Hi'). by apply IH.
Qed.

Lemma set_times_in_range_aux (xs : list Sample) (b : Board) :
  let s := set_times_run xs (set_times b) in
  (0 <= study s <= 95 /\ (5 | study s)) /\ (0 <= rest s <= 95 /\ (5 | rest s)) /\
  0 <= idx s <= 2.
Proof.
  assert (H1 : 0 <= study (set_times b) <= 95 /\ (5 | study (set_times b)))
    by (simpl; split; [lia | by exists 5]).
  assert (H2 : 0 <= rest (set_times b) <= 95 /\ (5 | rest (set_times b)))
    by (simpl; split; [lia | by exists 1]).
  assert (H3 : 0 <= idx (set_times b) <= 2) by (simpl; lia).
  exact (in_range_run xs (set_times b) H1 H2 H3).
Qed.

(** X6: whatever is pressed, [set_times] keeps both fields on the
    5-minute grid within [0, 95] and the field index within [0, 2]; when it
    returns, both fields have been confirmed and each result is a whole
    number of 5-minute steps between 0 and 5700 seconds. *)
Theorem set_times_in_range (b : Board) (xs : list Sample) :
  let s := set_times_run xs (set_times b) in
  0 <= study s <= 95 /\ (5 | study s) /\
  0 <= rest s <= 95 /\ (5 | rest s) /\
  0 <= idx s <= 2 /\
  forall study_secs rest_secs : Z,
    set_times_result s = Some (study_secs, rest_secs) ->
    idx s = 2 /\
    0 <= study_secs <= 5700 /\ (300 | study_secs) /\
    0 <= rest_secs <= 5700 /\ (300 | rest_secs).
Proof.
  destruct (set_times_in_range_aux xs b) as ((Hs & ks & Hks) & (Hr & kr & Hkr) & Hi).
  simpl.
  split; [done |]. split; [by exists ks |]. split; [done |].
  split; [by exists kr |]. split; [done |].
  intros a r. unfold set_times_result.
  destruct (Z.ltb_spec (idx (set_times_run xs (set_times b))) 2); [done |].
  intros [= <- <-]. rewrite Hks, Hkr in *.
  repeat split; try lia; [exists ks | exists kr]; lia.
Qed.


(** X9: an accepted up press followed by an accepted down press restores
    the field in focus, except at the upper bound 95, where the up press is
    absorbed and the field ends at 90; and the other way round at the lower
    bound 0, where the field ends at 5.  The other field and the focus are
    untouched. *)
Theorem up_then_down_restores (b : Board) (xs : list Sample) (x y : Sample) :
  let s := set_times_run xs (set_times b) in
  let s2 := set_times_step y (set_times_step x s) in
  (snd (set_times_pass x s) = [Up] ->
   snd (set_times_pass y (set_times_step x s)) = [Down] ->
   idx s2 = idx s /\
   if idx s =? 0
   then rest s2 = rest s /\ study s2 = (if study s =? 95 then 90 else study s)
   else study s2 = study s /\ rest s2 = (if rest s =? 95 then 90 else rest s)) /\
  (snd (set_times_pass x s) = [Down] ->
   snd (set_times_pass y (set_times_step x s)) = [Up] ->
   idx s2 = idx s /\
   if idx s =? 0
   then rest s2 = rest s /\ study s2 = (if study s =? 0 then 5 else study s)
   else study s2 = study s /\ rest s2 = (if rest s =? 0 then 5 else rest s)).
Proof.
  intros s s2.
  destruct (set_times_in_range_aux xs b) as ((Hs & ks & Hks) & (Hr & kr & Hkr) & _).
  fold s in Hs, Hr, Hks, Hkr.
  pose proof (settings_pass y (set_times_step x s)) as E2.
  pose proof (settings_pass x s) as E1.
  fold s2 in E2. rewrite E1 in E2. unfold settings in E2.
  split; intros Hx Hy; rewrite Hx, Hy in E2;
    change (foldl edit (foldl edit ?v [?p]) [?q]) with (edit (edit v p) q) in E2;
    simpl in E2; destruct (idx s =? 0) eqn:E0; simpl in E2; rewrite E0 in E2;
    injection E2 as -> -> ->; (split; [done |]); (split; [done |]).
  - destruct (Z.eqb_spec (study s) 95); lia.
  - destruct (Z.eqb_spec (rest s) 95); lia.
  - destruct (Z.eqb_spec (study s) 0); lia.
  - destruct (Z.eqb_spec (rest s) 0); lia.
Qed.

Lemma up_then_down_restores_witness :
  let s := set_times_run [idle 100] (set_times power_up) in
  snd (set_times_pass (press_up 600) s) = [Up] /\
  snd (set_times_pass (press_down 600) (set_times_step (press_up 600) s)) = [Down] /\
  (idx s =? 0) = true /\
  study (set_times_step (press_down 600) (set_times_step (press_up 600) s)) = 25.
Proof.
  intros s.
  destruct (up_then_down_restores power_up [idle 100] (press_up 600) (press_down 600))
    as (Hud & _).
  destruct (Hud eq_refl eq_refl) as (_ & Hv).
  split; [reflexivity |]. split; [reflexivity |]. split; [reflexivity |].
  exact (proj2 Hv).
Defined.

(** The display is left alone by the configuration loop but for its cells. *)
Lemma set_times_digits_step (x : Sample) (s : SetTimes) :
  digits (display (st_board (set_times_step x s))) = digits (display (st_board s)).
Proof.
  unfold set_times_step, set_times_pass. destruct (idx s <? 2); [| done].
  cbv zeta.
  generalize (ticks_ms (clock (pass x (st_board s)))) as now. intros now.
  unfold on_up, on_down, on_confirm.
  destruct (not_ (btn_up x) && _); cbn [last st_board];
    destruct (not_ (btn_down x) && _); cbn [last st_board];
    destruct (not_ (btn_confirm x) && _); reflexivity.
Qed.

Lemma set_times_digits_run (xs : list Sample) (s : SetTimes) :
  digits (display (st_board (set_times_run xs s))) = digits (display (st_board s)).
Proof.
  revert s. induction xs as [|x xs IH]; intros s; [done |].
  rewrite set_times_run_cons, IH. apply set_times_digits_step.
Qed.

Lemma set_times_display_step (x : Sample) (s : SetTimes) :
  idx s < 2 ->
  display (st_board (set_times_step x s))
  = write_str (display (st_board s))
      (edit_frame s (ticks_ms (clock (st_board s) + Z.of_N (elapsed x)))).
Proof.
  intros Hi. unfold set_times_step, set_times_pass.
  destruct (Z.ltb_spec (idx s) 2); [| lia].
  cbv zeta.
  change (clock (pass x (st_board s))) with (clock (st_board s) + Z.of_N (elapsed x)).
  generalize (ticks_ms (clock (st_board s) + Z.of_N (elapsed x))) as now. intros now.
  unfold on_up, on_down, on_confirm.
  destruct (not_ (btn_up x) && _); cbn [last st_board];
    destruct (not_ (btn_down x) && _); cbn [last st_board];
    destruct (not_ (btn_confirm x) && _); reflexivity.
Qed.

(** X10: while a field is edited a pass of [set_times] writes four
    characters to the display: in the first half of each second both fields
    as two zero-padded digits, in the second half the field in focus
    replaced by two blanks and the other one shown. *)
Theorem edit_frame_blinks_focus (b : Board) (xs : list Sample) (x : Sample) :
  ndigits (display b) = 4%nat ->
  let s := set_times_run xs (set_times b) in
  idx s < 2 ->
  let now := ticks_ms (clock (st_board s) + Z.of_N (elapsed x)) in
  let blink_on := (now `div` 500) `mod` 2 =? 0 in
  edit_frame s now
  = (if blink_on then (Spec.zero_pad2 (study s) ++ Spec.zero_pad2 (rest s))%string
     else if idx s =? 0 then ("  " ++ Spec.zero_pad2 (rest s))%string
     else (Spec.zero_pad2 (study s) ++ "  ")%string) /\
  String.length (edit_frame s now) = 4%nat /\
  buffer (display (st_board (set_times_step x s))) = Py.list_of_str (edit_frame s now).
Proof.
  intros Hn s Hi now blink_on.
  destruct (set_times_in_range_aux xs b) as ((Hs & _) & (Hr & _) & Hidx).
  fold s in Hs, Hr, Hidx.
  assert (Hf : edit_frame s now
               = (if blink_on
                  then (Spec.zero_pad2 (study s) ++ Spec.zero_pad2 (rest s))%string
                  else if idx s =? 0 then ("  " ++ Spec.zero_pad2 (rest s))%string
                  else (Spec.zero_pad2 (study s) ++ "  ")%string)).
  { unfold edit_frame. fold blink_on.
    rewrite !format_02_two_digits by lia.
    destruct blink_on; simpl.
    - by rewrite !andb_false_r.
    - rewrite !andb_true_r. destruct (Z.eqb_spec (idx s) 0) as [E0|E0]; [done |].
      destruct (Z.eqb_spec (idx s) 1) as [E1|E1]; [done | lia]. }
  assert (Hlen : String.length (edit_frame s now) = 4%nat).
  { rewrite Hf. destruct blink_on; [done |]. by destruct (idx s =? 0). }
  split; [done |]. split; [done |].
  rewrite set_times_display_step by done. fold now.
  unfold write_str, ndigits. cbn [buffer].
  unfold s at 1. rewrite set_times_digits_run. cbn [set_times st_board].
  unfold ndigits in Hn. rewrite Hn. unfold fit.
  rewrite Hlen. reflexivity.
Qed.

Lemma edit_frame_blinks_focus_witness :
  let s := set_times_run [press_up 600] (set_times power_up) in
  ndigits (display power_up) = 4%nat /\ idx s < 2 /\
  buffer (display (st_board (set_times_step (idle 100) s))) = [" "; " "; "0"; "5"]%char /\
  buffer (display (st_board (set_times_step (idle 400) s))) = ["3"; "0"; "0"; "5"]%char.
Proof.
  intros s.
  assert (Hi : idx s < 2) by reflexivity.
  destruct (edit_frame_blinks_focus power_up [press_up 600] (idle 100) eq_refl Hi)
    as (_ & _ & Hoff).
  destruct (edit_frame_blinks_focus power_up [press_up 600] (idle 400) eq_refl Hi)
    as (_ & _ & Hon).
  split; [reflexivity |]. split; [exact Hi |]. split; [exact Hoff | exact Hon].
Defined.


(** X11: the one timestamp [last] that the three buttons share starts at
    the clock read on entry, so while the passes read the clock no later
    than the debounce time (500 ms) after [set_times] was called no press
    is accepted, and the settings stay at their defaults. *)
Theorem set_times_dead_time (b : Board) (xs : list Sample) :
  clock (st_board (set_times_run xs (set_times b))) <= clock b + debounce + 40 ->
  Forall (eq []) (set_times_events xs (set_times b)) /\
  settings (set_times_run xs (set_times b)) = (25, 5, 0).
Proof.
  intros Hclk.
  assert (Hnone : Forall (eq []) (set_times_events xs (set_times b))).
  { apply (set_times_window (clock b)); [done | simpl; lia | done]. }
  split; [done |].
  rewrite settings_run.
  assert (Hempty : concat (set_times_events xs (set_times b)) = []).
  { induction Hnone as [|e es <- _ IH]; [done | exact IH]. }
  rewrite Hempty. done.
Qed.

Lemma set_times_dead_time_witness :
  let xs := [press_confirm 100; press_up 150; press_down 130] in
  clock (st_board (set_times_run xs (set_times power_up)))
  <= clock power_up + debounce + 40 /\
  set_times_events xs (set_times power_up) = [[]; []; []] /\
  settings (set_times_run xs (set_times power_up)) = (25, 5, 0).
Proof.
  intros xs.
  assert (H : clock (st_board (set_times_run xs (set_times power_up)))
              <= clock power_up + debounce + 40) by (vm_compute; discriminate).
  destruct (set_times_dead_time power_up xs H) as (_ & Hs).
  split; [exact H |]. split; [reflexivity | exact Hs].
Defined.

End SetTimesMore.

(** ** More properties of [countdown] *)

Module CountdownMore.

Import SevenSegment SevenSegmentFacts Main Time TimeFacts CountdownFacts Session.

(** Every tick that has gone by took its 1000 ms: what one pass keeps. *)
Lemma pace_step (start d : Z) (x : Sample) (c : Countdown) :
  (match loc c with
   | AtTick | Done => start + 1000 * (d - seconds c) <= clock (board c)
   | _ => exists D, end_time c = ticks_ms D /\ D - 1000 <= clock (board c) /\
                    start + 1000 * (d - seconds c + 1) <= D
   end) ->
  let c' := countdown_step x c in
  match loc c' with
  | AtTick | Done => start + 1000 * (d - seconds c') <= clock (board c')
  | _ => exists D, end_time c' = ticks_ms D /\ D - 1000 <= clock (board c') /\
                   start + 1000 * (d - seconds c' + 1) <= D
  end.
Proof.
  intros H. simpl.
  pose proof (clock_step x c) as Hclk.
  destruct (loc c) eqn:Hl.
  - destruct (Z_le_gt_dec 0 (seconds c)) as [Hs|Hs].
    + destruct (tick_opens x c Hl Hs) as (L & S & _ & K & E & _).
      rewrite L. exists (clock (board (countdown_step x c)) + 1000).
      rewrite E, ticks_add_ms, S. split; [done |]. lia.
    + unfold countdown_step. rewrite Hl.
      destruct (Z.geb_spec (seconds c) 0); [lia |]. simpl. simpl in Hclk.
      unfold countdown_step in Hclk. rewrite Hl in Hclk.
      destruct (Z.geb_spec (seconds c) 0); [lia |]. simpl in Hclk. lia.
  - destruct H as (D & E & Hlo & Hd).
    unfold countdown_step in *. rewrite Hl in *.
    destruct (ticks_diff (end_time c) (ticks_ms (clock (pass x (board c)))) >? 0) eqn:Hdiff.
    + simpl in *. destruct (not_ (btn_reset x)); simpl; exists D; lia.
    + simpl in *. rewrite E in Hdiff. apply not_expired_before in Hdiff; lia.
  - destruct H as (D & E & Hlo & Hd).
    unfold countdown_step in *. rewrite Hl in *.
    destruct (paused_flag c); [destruct (not_ (btn_confirm x)) |]; simpl in *;
      exists D; lia.
  - unfold countdown_step. rewrite Hl, Hl. done.
  - unfold countdown_step. rewrite Hl, Hl. done.
Qed.

Lemma pace_run (start d : Z) (xs : list Sample) (c : Countdown) :
  (match loc c with
   | AtTick | Done => start + 1000 * (d - seconds c) <= clock (board c)
   | _ => exists D, end_time c = ticks_ms D /\ D - 1000 <= clock (board c) /\
                    start + 1000 * (d - seconds c + 1) <= D
   end) ->
  let c' := countdown_run xs c in
  match loc c' with
  | AtTick | Done => start + 1000 * (d - seconds c') <= clock (board c')
  | _ => exists D, end_time c' = ticks_ms D /\ D - 1000 <= clock (board c') /\
                   start + 1000 * (d - seconds c' + 1) <= D
  end.
Proof.
  revert c. induction xs as [|x xs IH]; intros c H; simpl; [done |].
  apply IH. by apply pace_step.
Qed.

(** X12: the countdown never runs ahead of the clock: when the seconds
    have gone down by [k], at least [1000 * k] milliseconds have gone by
    since [countdown] was called, and a phase of [d] seconds that has ended
    took at least [1000 * (d + 1)] milliseconds. *)
Theorem countdown_never_runs_fast (d : Z) (paused : bool) (full : Color)
    (last_min : option Color) (b : Board) (xs : list Sample) :
  let c := countdown_run xs (countdown d paused full last_min b) in
  clock b + 1000 * (d - seconds c) <= clock (board c) /\
  (0 <= d -> loc c = Done -> clock b + 1000 * (d + 1) <= clock (board c)).
Proof.
  intros c.
  pose proof (pace_run (clock b) d xs (countdown d paused full last_min b)) as H.
  simpl in H. fold c in H. specialize (H ltac:(lia)).
  assert (Hpace : clock b + 1000 * (d - seconds c) <= clock (board c)).
  { destruct (loc c); try done; destruct H as (D & _ & ? & ?); lia. }
  split; [done |].
  intros Hd Hl.
  destruct (phase_run d xs (countdown d paused full last_min b)) as (_ & Hdone & _);
    simpl; [lia | done | |].
  { unfold in_tick. simpl. intros [[? | ?] | ?]; done. }
  fold c in Hdone. specialize (Hdone Hl). lia.
Qed.

Lemma countdown_never_runs_fast_witness :
  let c := countdown_run (quiet_ticks 3 ++ [idle 7])
             (countdown 2 false (0, 255, 0) None power_up) in
  0 <= 2 /\ loc c = Done /\ clock power_up + 1000 * (2 + 1) <= clock (board c).
Proof.
  intros c.
  assert (H : 0 <= 2) by (vm_compute; discriminate).
  destruct (countdown_never_runs_fast 2 false (0, 255, 0) None power_up
              (quiet_ticks 3 ++ [idle 7])) as (_ & Hdone).
  split; [exact H |]. split; [reflexivity |]. exact (Hdone H eq_refl).
Defined.


(** The pause flag is set only inside the blink loop. *)
Lemma flag_step (x : Sample) (c : Countdown) :
  (paused_flag c = true -> loc c = Blinking \/ loc c = Restart) ->
  paused_flag (countdown_step x c) = true ->
  loc (countdown_step x c) = Blinking \/ loc (countdown_step x c) = Restart.
Proof.
  intros H. unfold countdown_step, last_minute.
  destruct (loc c) eqn:Hl.
  - destruct (seconds c >=? 0);
      [destruct (led_color_last_min c);
       [destruct ((seconds c =? 60) && negb (color_changed c)) |] |];
      simpl; intros Hp; destruct (H Hp); done.
  - destruct (_ >? 0); simpl.
    + destruct (not_ (btn_reset x)); auto.
    + intros Hp; destruct (H Hp); done.
  - destruct (paused_flag c) eqn:Hp; [destruct (not_ (btn_confirm x)) |]; simpl;
      try done; auto.
  - rewrite Hl. intros Hp. destruct (H Hp); done.
  - rewrite Hl. auto.
Qed.

Lemma flag_run (xs : list Sample) (c : Countdown) :
  (paused_flag c = true -> loc c = Blinking \/ loc c = Restart) ->
  paused_flag (countdown_run xs c) = true ->
  loc (countdown_run xs c) = Blinking \/ loc (countdown_run xs c) = Restart.
Proof.
  revert c. induction xs as [|x xs IH]; intros c H; simpl; [done |].
  apply IH. by apply flag_step.
Qed.

(** X13: a countdown entered with the pause flag off has the flag on only
    inside the blink loop (or on its way out through a reset): it never
    returns with the flag on, and a pass that takes a second off finds the
    flag off. *)
Theorem pause_never_leaves_the_phase (d : Z) (full : Color)
    (last_min : option Color) (b : Board) (xs : list Sample) (x : Sample) :
  let c := countdown_run xs (countdown d false full last_min b) in
  (paused_flag c = true -> loc c = Blinking \/ loc c = Restart) /\
  (loc c = Done -> paused_flag c = false) /\
  (seconds (countdown_step x c) < seconds c -> paused_flag c = false).
Proof.
  intros c.
  assert (H : paused_flag c = true -> loc c = Blinking \/ loc c = Restart).
  { apply flag_run. simpl. done. }
  split; [done |]. split.
  - intros Hl. destruct (paused_flag c); [| done]. destruct H as [H | H]; congruence.
  - intros Hdec. destruct (paused_flag c) eqn:Hp; [| done]. exfalso.
    destruct H as [H | H]; [done | |]; revert Hdec;
      unfold countdown_step; rewrite H, ?Hp.
    + destruct (not_ (btn_confirm x)); simpl; lia.
    + lia.
Qed.

(** Within a tick the cells hold the frame of the running second or blanks. *)
Lemma cells_step (x : Sample) (c : Countdown) :
  ndigits (display (board c)) = 4%nat ->
  (in_tick c \/ loc c = Restart ->
   buffer (display (board c)) = Py.list_of_str (fit 4 (frame c)) \/
   buffer (display (board c)) = [" "; " "; " "; " "]%char) ->
  let c' := countdown_step x c in
  in_tick c' \/ loc c' = Restart ->
  buffer (display (board c')) = Py.list_of_str (fit 4 (frame c')) \/
  buffer (display (board c')) = [" "; " "; " "; " "]%char.
Proof.
  intros Hn H. simpl. unfold in_tick in *.
  destruct (loc c) eqn:Hl.
  - destruct (Z_le_gt_dec 0 (seconds c)) as [Hs|Hs].
    + destruct (tick_opens x c Hl Hs) as (_ & _ & F & _ & _ & W & _).
      intros _. left. rewrite W, F. unfold write_str. simpl. by rewrite Hn.
    + unfold countdown_step. rewrite Hl.
      destruct (Z.geb_spec (seconds c) 0); [lia |]. simpl.
      intros [[? | ?] | ?]; done.
  - unfold countdown_step. rewrite Hl. destruct (_ >? 0); simpl.
    + intros _. destruct (not_ (btn_confirm x)); simpl; apply H; auto.
    + intros [[? | ?] | ?]; done.
  - unfold countdown_step. rewrite Hl.
    destruct (paused_flag c); [destruct (not_ (btn_confirm x)) |]; simpl;
      intros _; try (apply H; auto).
    destruct (_ =? 0); simpl; [left | right].
    + unfold write_str. simpl. by rewrite Hn.
    + unfold clear. simpl. by rewrite Hn.
  - unfold countdown_step. rewrite Hl, Hl. intros [[? | ?] | ?]; done.
  - unfold countdown_step. rewrite Hl. intros _. apply H. auto.
Qed.

Lemma tick_frame_step (x : Sample) (c : Countdown) :
  (in_tick c \/ loc c = Restart -> 0 <= seconds c /\ frame c = mmss (seconds c)) ->
  let c' := countdown_step x c in
  in_tick c' \/ loc c' = Restart -> 0 <= seconds c' /\ frame c' = mmss (seconds c').
Proof.
  intros H. simpl. unfold in_tick in *.
  destruct (loc c) eqn:Hl.
  - destruct (Z_le_gt_dec 0 (seconds c)) as [Hs|Hs].
    + destruct (tick_opens x c Hl Hs) as (_ & S & F & _). rewrite S, F. done.
    + unfold countdown_step. rewrite Hl.
      destruct (Z.geb_spec (seconds c) 0); [lia |]. simpl.
      intros [[? | ?] | ?]; done.
  - unfold countdown_step. rewrite Hl. destruct (_ >? 0); simpl.
    + intros _. apply H. auto.
    + intros [[? | ?] | ?]; done.
  - unfold countdown_step. rewrite Hl.
    destruct (paused_flag c); [destruct (not_ (btn_confirm x)) |]; simpl;
      intros _; apply H; auto.
  - unfold countdown_step. rewrite Hl, Hl. intros [[? | ?] | ?]; done.
  - unfold countdown_step. rewrite Hl. intros _. apply H. auto.
Qed.

Lemma tick_cells_run (xs : list Sample) (c : Countdown) :
  ndigits (display (board c)) = 4%nat ->
  (in_tick c \/ loc c = Restart -> 0 <= seconds c /\ frame c = mmss (seconds c)) ->
  (in_tick c \/ loc c = Restart ->
   buffer (display (board c)) = Py.list_of_str (fit 4 (frame c)) \/
   buffer (display (board c)) = [" "; " "; " "; " "]%char) ->
  let c' := countdown_run xs c in
  in_tick c' \/ loc c' = Restart ->
  (0 <= seconds c' /\ frame c' = mmss (seconds c')) /\
  (buffer (display (board c')) = Py.list_of_str (fit 4 (frame c')) \/
   buffer (display (board c')) = [" "; " "; " "; " "]%char).
Proof.
  revert c. induction xs as [|x xs IH]; intros c Hn Hf Hb; simpl; [auto |].
  apply IH.
  - unfold ndigits in *. by rewrite digits_step.
  - by apply tick_frame_step.
  - by apply cells_step.
Qed.

Lemma mmss_fits (secs : Z) :
  0 <= secs <= 5999 -> fit 4 (mmss secs) = mmss secs.
Proof.
  intros Hs. unfold mmss.
  rewrite !format_02_two_digits; [done | |].
  - pose proof (Z.mod_pos_bound secs 60). lia.
  - split; [apply Z.div_pos; lia | apply Z.div_lt_upper_bound; lia].
Qed.

(** X14: during a tick the seconds are not negative, the frame is the
    [MMSS] text of the current second, and the cells of the display hold
    either that frame cut or padded to four characters or four blanks; up to
    5999 seconds the frame has exactly four characters. *)
Theorem tick_shows_its_second_or_blank (d : Z) (paused : bool) (full : Color)
    (last_min : option Color) (b : Board) (xs : list Sample) :
  ndigits (display b) = 4%nat ->
  let c := countdown_run xs (countdown d paused full last_min b) in
  in_tick c ->
  0 <= seconds c /\ frame c = mmss (seconds c) /\
  (buffer (display (board c)) = Py.list_of_str (fit 4 (mmss (seconds c))) \/
   buffer (display (board c)) = [" "; " "; " "; " "]%char) /\
  (seconds c <= 5999 -> fit 4 (mmss (seconds c)) = mmss (seconds c)).
Proof.
  intros Hn c Hin.
  destruct (tick_cells_run xs (countdown d paused full last_min b)) as ((Hs & Hf) & Hb);
    simpl; unfold in_tick; simpl; try done.
  1-2: intros [[? | ?] | ?]; done.
  { left. exact Hin. }
  fold c in Hs, Hf, Hb. rewrite Hf in Hb.
  split; [done |]. split; [done |]. split; [done |].
  intros Hle. apply mmss_fits. lia.
Qed.

Lemma tick_shows_its_second_or_blank_witness :
  let c := countdown_run [idle 0; press_confirm 100; idle 500]
             (countdown 754 false (0, 255, 0) None power_up) in
  ndigits (display power_up) = 4%nat /\ in_tick c /\
  (buffer (display (board c)) = ["1"; "2"; "3"; "4"]%char \/
   buffer (display (board c)) = [" "; " "; " "; " "]%char).
Proof.
  intros c.
  assert (Hin : in_tick c) by (right; reflexivity).
  destruct (tick_shows_its_second_or_blank 754 false (0, 255, 0) None power_up
              [idle 0; press_confirm 100; idle 500] eq_refl Hin) as (_ & _ & Hb & _).
  split; [reflexivity |]. split; [exact Hin |]. exact Hb.
Defined.


(** While the confirm button is not read pressed the pause flag stays off
    and the cells stay. *)
Lemma unpaused_step (x : Sample) (c : Countdown) :
  ndigits (display (board c)) = 4%nat ->
  reads_confirm x c && not_ (btn_confirm x) = false -> paused_flag c = false ->
  (in_tick c \/ loc c = Restart ->
   buffer (display (board c)) = Py.list_of_str (fit 4 (frame c))) ->
  let c' := countdown_step x c in
  paused_flag c' = false /\
  (in_tick c' \/ loc c' = Restart ->
   buffer (display (board c')) = Py.list_of_str (fit 4 (frame c'))).
Proof.
  intros Hn Hx Hp H. simpl. unfold in_tick in *. unfold reads_confirm in Hx.
  destruct (loc c) eqn:Hl.
  - destruct (Z_le_gt_dec 0 (seconds c)) as [Hs|Hs].
    + destruct (tick_opens x c Hl Hs) as (_ & _ & F & _ & _ & W & P).
      split; [congruence |]. intros _. rewrite W, F. unfold write_str. simpl.
      by rewrite Hn.
    + unfold countdown_step. rewrite Hl.
      destruct (Z.geb_spec (seconds c) 0); [lia |]. simpl.
      split; [done |]. intros [[? | ?] | ?]; done.
  - unfold countdown_step. rewrite Hl. destruct (_ >? 0); simpl.
    + simpl in Hx. rewrite Hx.
      split; [done |]. intros _. apply H. auto.
    + split; [done |]. intros [[? | ?] | ?]; done.
  - unfold countdown_step. rewrite Hl, Hp. simpl.
    split; [done |]. intros _. apply H. auto.
  - unfold countdown_step. rewrite Hl, Hl. split; [done |].
    intros [[? | ?] | ?]; done.
  - unfold countdown_step. rewrite Hl. split; [done |]. intros _. apply H. auto.
Qed.

Lemma unpaused_run (xs : list Sample) (c : Countdown) :
  ndigits (display (board c)) = 4%nat ->
  confirm_never_read_pressed xs c = true -> paused_flag c = false ->
  (in_tick c \/ loc c = Restart ->
   buffer (display (board c)) = Py.list_of_str (fit 4 (frame c))) ->
  let c' := countdown_run xs c in
  paused_flag c' = false /\
  (in_tick c' \/ loc c' = Restart ->
   buffer (display (board c')) = Py.list_of_str (fit 4 (frame c'))).
Proof.
  revert c. induction xs as [|x xs IH]; intros c Hn Hxs Hp H; simpl; [done |].
  simpl in Hxs. apply andb_true_iff in Hxs as [Hx Hxs].
  apply negb_true_iff in Hx.
  destruct (unpaused_step x c Hn Hx Hp H) as (Hp' & H').
  apply IH; [| done | done | done]. unfold ndigits in *. by rewrite digits_step.
Qed.

(** X15: as long as the confirm button is never read pressed, a countdown
    entered with the pause flag off never pauses, and during every tick the
    cells of the display hold the [MMSS] text of the current second (its
    first four characters beyond 5999 seconds).  The button may be pressed
    in passes that do not read it: the pass that opens a tick, and a pass
    that finds the deadline reached. *)
Theorem unpaused_tick_shows_its_second (d : Z) (full : Color)
    (last_min : option Color) (b : Board) (xs : list Sample) :
  ndigits (display b) = 4%nat ->
  confirm_never_read_pressed xs (countdown d false full last_min b) = true ->
  let c := countdown_run xs (countdown d false full last_min b) in
  paused_flag c = false /\ ~ is_paused c /\
  (in_tick c ->
   buffer (display (board c)) = Py.list_of_str (fit 4 (mmss (seconds c))) /\
   (seconds c <= 5999 ->
    buffer (display (board c)) = Py.list_of_str (mmss (seconds c)))).
Proof.
  intros Hn Hxs c.
  destruct (unpaused_run xs (countdown d false full last_min b)) as (Hp & Hb);
    try done.
  { unfold in_tick. simpl. intros [[? | ?] | ?]; done. }
  fold c in Hp, Hb.
  split; [done |]. split; [intros [_ ?]; congruence |].
  intros Hin.
  destruct (tick_cells_run xs (countdown d false full last_min b)) as ((Hs & Hf) & _);
    simpl; unfold in_tick; simpl; try done.
  1-2: intros [[? | ?] | ?]; done.
  { left. exact Hin. }
  fold c in Hs, Hf.
  assert (Hcells : buffer (display (board c))
                   = Py.list_of_str (fit 4 (mmss (seconds c)))).
  { rewrite <- Hf. apply Hb. by left. }
  split; [done |]. intros Hle. rewrite Hcells, mmss_fits by lia. done.
Qed.

(** The confirm button is held while the first tick opens and while the
    wait loop finds its deadline passed, and released when it is read. *)
Lemma unpaused_tick_shows_its_second_witness :
  let xs := [press_confirm 0; press_confirm 1200; press_confirm 0; idle 10; idle 0] in
  let c := countdown_run xs (countdown 754 false (0, 255, 0) None power_up) in
  ndigits (display power_up) = 4%nat /\
  confirm_never_read_pressed xs (countdown 754 false (0, 255, 0) None power_up) = true /\
  in_tick c /\ seconds c = 753 /\
  buffer (display (board c)) = ["1"; "2"; "3"; "3"]%char.
Proof.
  intros xs c.
  assert (Hxs : confirm_never_read_pressed xs
                  (countdown 754 false (0, 255, 0) None power_up) = true)
    by reflexivity.
  assert (Hin : in_tick c) by (left; reflexivity).
  destruct (unpaused_tick_shows_its_second 754 (0, 255, 0) None power_up xs
              eq_refl Hxs) as (_ & _ & Hb).
  destruct (Hb Hin) as (_ & Hcells).
  split; [reflexivity |]. split; [exact Hxs |]. split; [exact Hin |].
  split; [reflexivity |]. apply Hcells. vm_compute. discriminate.
Defined.

End CountdownMore.

(** ** Properties of [_play_jingle_thread] *)

Module JingleThreadFacts.

Import JingleThread.

Section Jingle.

Context {music : Type} (tick : music -> bool * music) (restart : music -> music).

Lemma play_loop_ends (n fuel : nat) (jingle : music) (slept : Z) :
  (forall k, (k < n)%nat -> result_of_tick music tick k jingle = true) ->
  result_of_tick music tick n jingle = false ->
  play_loop music tick fuel jingle slept
  = if (n <? fuel)%nat
    then Some (after_ticks music tick (S n) jingle, slept + 40 * Z.of_nat (S n))
    else None.
Proof.
  revert fuel jingle slept. induction n as [|n IH]; intros fuel jingle slept Hmore Hlast.
  - destruct fuel as [|fuel]; [done |]. simpl.
    unfold result_of_tick in Hlast. simpl in Hlast.
    destruct (tick jingle) as [result jingle']. simpl in *. subst result.
    done.
  - destruct fuel as [|fuel]; [done |].
    pose proof (Hmore O ltac:(lia)) as H0. unfold result_of_tick in H0. simpl in H0.
    change (play_loop music tick (S fuel) jingle slept)
      with (let '(result, jingle') := tick jingle in
            if result then play_loop music tick fuel jingle' (slept + 40)
            else Some (jingle', slept + 40)).
    destruct (tick jingle) as [result jingle'] eqn:Et. simpl in H0. subst result.
    rewrite (IH fuel jingle' (slept + 40)).
    + change (S n <? S fuel)%nat with (n <? fuel)%nat.
      destruct (n <? fuel)%nat; [| done].
      change (after_ticks music tick (S (S n)) jingle)
        with (after_ticks music tick (S n) (snd (tick jingle))).
      rewrite Et. simpl snd. f_equal. apply pair_equal_spec. split; [done | lia].
    + intros k Hk. specialize (Hmore (S k) ltac:(lia)).
      unfold result_of_tick in *. simpl in Hmore. by rewrite Et in Hmore.
    + unfold result_of_tick in *. simpl in Hlast. by rewrite Et in Hlast.
Qed.

Lemma play_loop_forever (fuel : nat) (jingle : music) (slept : Z) :
  (forall k, result_of_tick music tick k jingle = true) ->
  play_loop music tick fuel jingle slept = None.
Proof.
  revert jingle slept. induction fuel as [|fuel IH]; intros jingle slept Hmore; [done |].
  pose proof (Hmore O) as H0. unfold result_of_tick in H0. simpl in H0.
  simpl. destruct (tick jingle) as [result jingle'] eqn:Et. simpl in H0. subst result.
  apply IH. intros k. specialize (Hmore (S k)).
  unfold result_of_tick in *. simpl in Hmore. by rewrite Et in Hmore.
Qed.

(** X16: [_play_jingle_thread] calls [tick()] until it returns false for
    the first time, once more than the number of calls that returned true,
    sleeps 40 ms after each call, the last one included, and then calls
    [restart()] once; on a jingle whose [tick()] always returns true it does
    not end. *)
Theorem jingle_thread_plays_to_the_end (n fuel : nat) (jingle : music) :
  ((forall k, (k < n)%nat -> result_of_tick music tick k jingle = true) ->
   result_of_tick music tick n jingle = false ->
   _play_jingle_thread music tick restart fuel jingle
   = if (n <? fuel)%nat
     then Some (restart (after_ticks music tick (S n) jingle), 40 * Z.of_nat (S n))
     else None) /\
  ((forall k, result_of_tick music tick k jingle = true) ->
   _play_jingle_thread music tick restart fuel jingle = None).
Proof.
  split.
  - intros Hmore Hlast. unfold _play_jingle_thread.
    rewrite (play_loop_ends n fuel jingle 0 Hmore Hlast).
    destruct (n <? fuel)%nat; [| done]. f_equal.
  - intros Hmore. unfold _play_jingle_thread.
    by rewrite play_loop_forever.
Qed.

End Jingle.

(** A jingle of three notes left, as a counter: [tick()] plays one and
    reports whether notes are left; [restart()] brings back four. *)
Lemma jingle_thread_plays_to_the_end_witness :
  let tick := fun left : nat => (Nat.ltb 1 left, Nat.pred left) in
  let restart := fun _ : nat => 4%nat in
  (forall k, (k < 2)%nat -> result_of_tick nat tick k 3%nat = true) /\
  result_of_tick nat tick 2 3%nat = false /\
  _play_jingle_thread nat tick restart 10 3%nat = Some (4%nat, 120).
Proof.
  intros tick restart.
  assert (Hmore : forall k, (k < 2)%nat -> result_of_tick nat tick k 3%nat = true).
  { intros [|[|k]] Hk; [reflexivity | reflexivity | lia]. }
  split; [exact Hmore |]. split; [reflexivity |].
  exact (proj1 (jingle_thread_plays_to_the_end tick restart 2 10 3%nat) Hmore eq_refl).
Defined.

End JingleThreadFacts.

(** ** More properties of [main] *)

Module MainMore.

Import SevenSegment SevenSegmentFacts Main Time TimeFacts CountdownFacts SetTimesFacts Edit Session.
Import SetTimesMore CountdownMore.

Lemma main_run_cons x xs p : main_run (x :: xs) p = main_run xs (main_step x p).
Proof. reflexivity. Qed.

Lemma main_run_app xs ys p : main_run (xs ++ ys) p = main_run ys (main_run xs p).
Proof. unfold main_run. apply foldl_app. Qed.

Lemma countdown_ok_start (duration : Z) (full : Color) (last_min : option Color)
    (b : Board) :
  0 <= duration <= 5700 -> countdown_ok duration (countdown duration false full last_min b).
Proof.
  intros Hd. unfold countdown_ok, in_tick. simpl.
  split; [done |]. split; [lia |]. split; [done |].
  split; [intros [[? | ?] | ?]; done | done].
Qed.

Lemma countdown_ok_step (duration : Z) (x : Sample) (c : Countdown) :
  countdown_ok duration c -> countdown_ok duration (countdown_step x c).
Proof.
  intros (Hd & Hr & Hdone & Hf & Hp).
  destruct (phase_step duration x c Hr Hdone Hf) as (Hr' & Hdone' & Hf').
  unfold countdown_ok. split; [done |]. split; [done |]. split; [done |].
  split; [done |]. by apply flag_step.
Qed.

Lemma settings_ok_start (b : Board) : settings_ok (set_times b).
Proof.
  unfold settings_ok. simpl.
  split; [split; [lia | by exists 5] |]. split; [split; [lia | by exists 1] | lia].
Qed.

Lemma program_ok_step (x : Sample) (p : Program) :
  program_ok p -> program_ok (main_step x p).
Proof.
  unfold program_ok, main_step.
  destruct (phase p) as [s | ss rs c | ss rs c].
  - intros ((Hs & ks & Hks) & (Hr & kr & Hkr) & Hi).
    unfold set_times_result. destruct (Z.ltb_spec (idx s) 2).
    + simpl. apply in_range_step; [split; [done | by exists ks] |
                                    split; [done | by exists kr] | done].
    + simpl. split; [lia |]. apply countdown_ok_start. lia.
  - intros (Hrs & Hc).
    pose proof Hc as (Hd & _ & _ & _ & Hp).
    destruct (loc c) eqn:Hl; simpl.
    1-3: split; [done | by apply countdown_ok_step].
    + split; [done |].
      destruct (paused_flag c); [destruct Hp as [? | ?]; congruence |].
      by apply countdown_ok_start.
    + apply settings_ok_start.
  - intros (Hss & Hc).
    pose proof Hc as (Hd & _ & _ & _ & Hp).
    destruct (loc c) eqn:Hl; simpl.
    1-3: split; [done | by apply countdown_ok_step].
    + split; [done |].
      destruct (paused_flag c); [destruct Hp as [? | ?]; congruence |].
      by apply countdown_ok_start.
    + apply settings_ok_start.
Qed.

Lemma program_ok_run (xs : list Sample) (p : Program) :
  program_ok p -> program_ok (main_run xs p).
Proof.
  revert p. induction xs as [|x xs IH]; intros p Hp; [done |].
  rewrite main_run_cons. apply IH. by apply program_ok_step.
Qed.

Lemma mmss_two_digits (secs : Z) :
  0 <= secs <= 5999 ->
  mmss secs = (Spec.zero_pad2 (secs `div` 60) ++ Spec.zero_pad2 (secs `mod` 60))%string.
Proof.
  intros Hs. unfold mmss.
  rewrite !format_02_two_digits; [done | |].
  - pose proof (Z.mod_pos_bound secs 60). lia.
  - split; [apply Z.div_pos; lia | apply Z.div_lt_upper_bound; lia].
Qed.

(** X17: whatever is pressed and whenever, in every state of the program
    the settings and the countdowns stay in range: the durations passed to
    [countdown] are within [0, 5700] seconds, the seconds left within
    [-1, duration], a countdown returns with the pause flag off, and during
    a tick the frame is the four-character [MMSS] text of the second. *)
Theorem program_stays_in_range (b : Board) (n : nat) (xs : list Sample) :
  let p := main_run xs (main b n) in
  program_ok p /\
  forall (study_secs rest_secs : Z) (c : Countdown),
    phase p = Working study_secs rest_secs c \/
    phase p = Resting study_secs rest_secs c ->
    0 <= study_secs <= 5700 /\ 0 <= rest_secs <= 5700 /\
    -1 <= seconds c <= 5700 /\
    (loc c = Done -> paused_flag c = false) /\
    (in_tick c ->
     frame c = (Spec.zero_pad2 (seconds c `div` 60)
                ++ Spec.zero_pad2 (seconds c `mod` 60))%string /\
     String.length (frame c) = 4%nat).
Proof.
  intros p.
  assert (Hok : program_ok p).
  { apply program_ok_run. unfold program_ok, main. simpl. apply settings_ok_start. }
  split; [done |].
  intros ss rs c Hphase. unfold program_ok in Hok.
  assert (Hc : 0 <= ss <= 5700 /\ 0 <= rs <= 5700 /\
               exists d, 0 <= d <= 5700 /\ countdown_ok d c).
  { destruct Hphase as [E | E]; rewrite E in Hok; destruct Hok as (H1 & H2);
      pose proof H2 as (H3 & _); repeat split; try lia; eauto. }
  destruct Hc as (Hss & Hrs & d & Hd & _ & Hr & _ & Hf & Hp).
  split; [done |]. split; [done |]. split; [lia |]. split.
  - intros Hl. destruct (paused_flag c); [| done].
    destruct Hp as [? | ?]; congruence.
  - intros Hin. destruct Hf as (Hs & Hf); [by left |].
    rewrite Hf, mmss_two_digits by lia. done.
Qed.


(** A countdown starts no jingle, and leaves the pause flag alone unless
    the confirm button is pressed. *)
Lemma jingles_step (x : Sample) (c : Countdown) :
  jingle_calls (board (countdown_step x c)) = jingle_calls (board c).
Proof. step_cases c x; done. Qed.

Lemma jingles_run (xs : list Sample) (c : Countdown) :
  jingle_calls (board (countdown_run xs c)) = jingle_calls (board c).
Proof.
  revert c. induction xs as [|x xs IH]; intros c; [done |].
  rewrite countdown_run_cons, IH. apply jingles_step.
Qed.

Lemma flag_kept_step (x : Sample) (c : Countdown) :
  btn_confirm x <> 0 -> paused_flag (countdown_step x c) = paused_flag c.
Proof.
  intros Hx. apply Z.eqb_neq in Hx.
  unfold countdown_step, last_minute, not_. rewrite Hx.
  destruct (loc c);
    repeat match goal with
           | |- context [if ?b then _ else _] => destruct b; simpl
           | |- context [match led_color_last_min c with _ => _ end] =>
               destruct (led_color_last_min c); simpl
           end; done.
Qed.

Lemma flag_kept_quiet (k : nat) (c : Countdown) :
  paused_flag (countdown_run (quiet_ticks k) c) = paused_flag c.
Proof.
  revert c. induction k as [|k IH]; intros c; [done |].
  change (quiet_ticks (S k)) with (quiet_tick ++ quiet_ticks k).
  rewrite countdown_run_app, IH. unfold quiet_tick.
  rewrite !countdown_run_cons. simpl countdown_run.
  rewrite !flag_kept_step; done.
Qed.

(** While a countdown has neither returned nor entered [main], a pass of
    the program is a pass of the countdown. *)
Lemma main_step_countdown (wrap : Countdown -> Phase) (study_secs rest_secs : Z)
    (x : Sample) (c : Countdown) (n : nat) :
  (forall c, wrap c = Working study_secs rest_secs c) \/
  (forall c, wrap c = Resting study_secs rest_secs c) ->
  loc c <> Done -> loc c <> Restart ->
  main_step x {| phase := wrap c; nested := n |}
  = {| phase := wrap (countdown_step x c); nested := n |}.
Proof.
  intros Hw Hd Hr. unfold main_step. simpl.
  destruct Hw as [Hw | Hw]; rewrite !Hw; destruct (loc c); done.
Qed.

Lemma main_quiet_ticks (wrap : Countdown -> Phase) (study_secs rest_secs : Z)
    (k : nat) (c : Countdown) (n : nat) :
  (forall c, wrap c = Working study_secs rest_secs c) \/
  (forall c, wrap c = Resting study_secs rest_secs c) ->
  loc c = AtTick -> Z.of_nat k <= seconds c + 1 ->
  main_run (quiet_ticks k) {| phase := wrap c; nested := n |}
  = {| phase := wrap (countdown_run (quiet_ticks k) c); nested := n |}.
Proof.
  intros Hw. revert c. induction k as [|k IH]; intros c Hl Hk; [done |].
  change (quiet_ticks (S k)) with (quiet_tick ++ quiet_ticks k).
  rewrite main_run_app, countdown_run_app.
  destruct (quiet_tick_run c Hl) as (L & S & _); [lia |].
  rewrite <- (IH (countdown_run quiet_tick c) L) by lia. f_equal.
  unfold quiet_tick. rewrite !main_run_cons, !countdown_run_cons.
  destruct (tick_opens (idle 0) c Hl) as (L1 & _); [lia |].
  rewrite (main_step_countdown wrap study_secs rest_secs) by (done || congruence).
  rewrite (main_step_countdown wrap study_secs rest_secs) by (done || congruence).
  done.
Qed.

(** A quiet phase of [duration] seconds: the countdown returns after
    [duration + 1] ticks of 1000 ms, unpaused, and has started no jingle. *)
Lemma quiet_phase_run (wrap : Countdown -> Phase) (study_secs rest_secs : Z)
    (duration : Z) (full : Color) (last_min : option Color) (b : Board) (n : nat) :
  (forall c, wrap c = Working study_secs rest_secs c) \/
  (forall c, wrap c = Resting study_secs rest_secs c) ->
  0 <= duration ->
  exists c : Countdown,
    main_run (quiet_ticks (Z.to_nat (duration + 1)) ++ [idle 0])
      {| phase := wrap (countdown duration false full last_min b); nested := n |}
    = {| phase := wrap c; nested := n |} /\
    loc c = Done /\ paused_flag c = false /\
    clock (board c) = clock b + 1000 * (duration + 1) /\
    jingle_calls (board c) = jingle_calls b.
Proof.
  intros Hw Hd.
  set (c0 := countdown duration false full last_min b).
  set (k := Z.to_nat (duration + 1)).
  destruct (quiet_ticks_run k c0) as (L & S & K); [done | simpl; lia |].
  set (c1 := countdown_run (quiet_ticks k) c0) in *.
  exists (countdown_step (idle 0) c1).
  rewrite main_run_app, (main_quiet_ticks wrap study_secs rest_secs)
    by (done || (simpl; lia)).
  fold c1. rewrite main_run_cons.
  rewrite (main_step_countdown wrap study_secs rest_secs) by (done || congruence).
  split; [done |].
  assert (Hs : seconds c1 = -1) by (simpl in S; lia).
  split.
  { unfold countdown_step. rewrite L.
    destruct (Z.geb_spec (seconds c1) 0); [lia | done]. }
  split.
  { rewrite flag_kept_step by done. unfold c1. by rewrite flag_kept_quiet. }
  split.
  - unfold countdown_step. rewrite L.
    destruct (Z.geb_spec (seconds c1) 0); [lia |]. simpl. simpl in K. lia.
  - rewrite jingles_step. unfold c1. by rewrite jingles_run.
Qed.

(** X19: with nothing pressed and every tick polled at its deadline, a
    work session of [study_secs] seconds hands over to the rest session
    after [300 + 1000 * (study_secs + 1)] milliseconds, having started the
    work jingle once; after [1000 * (rest_secs + 1)] more the next work
    session begins with the same durations, the pause flag off and the rest
    jingle started once, without a new invocation of [main]. *)
Theorem quiet_round_returns (study_secs rest_secs : Z) (b : Board) (n : nat) :
  0 <= study_secs -> 0 <= rest_secs ->
  let p := {| phase := work_session study_secs rest_secs false b; nested := n |} in
  (exists b1,
      main_run (quiet_phase study_secs) p
      = {| phase := rest_session study_secs rest_secs false b1; nested := n |} /\
      clock b1 = clock b + 300 + 1000 * (study_secs + 1) /\
      jingle_calls b1 = work_jingle :: jingle_calls b) /\
  (exists b2,
      main_run (quiet_round study_secs rest_secs) p
      = {| phase := work_session study_secs rest_secs false b2; nested := n |} /\
      clock b2 = clock b + 300 + 1000 * (study_secs + 1) + 1000 * (rest_secs + 1) /\
      jingle_calls b2 = rest_jingle :: work_jingle :: jingle_calls b).
Proof.
  intros Hs Hr p.
  destruct (quiet_phase_run (Working study_secs rest_secs) study_secs rest_secs
              study_secs (0, 255, 0) (Some (255, 255, 0))
              (sleep_ms 300 (play_jingle work_jingle (update_led (0, 255, 0) b))) n)
    as (c1 & E1 & L1 & P1 & K1 & J1); [by left | done |].
  assert (Hwork : main_run (quiet_phase study_secs) p
                  = {| phase := rest_session study_secs rest_secs false (board c1);
                       nested := n |}).
  { unfold quiet_phase.
    change (quiet_ticks (Z.to_nat (study_secs + 1)) ++ [idle 0; idle 0])
      with (quiet_ticks (Z.to_nat (study_secs + 1)) ++ [idle 0] ++ [idle 0]).
    rewrite app_assoc, main_run_app. unfold p, work_session. rewrite E1.
    rewrite main_run_cons. unfold main_step at 1. cbn [phase nested].
    rewrite L1, P1. done. }
  split.
  { exists (board c1). split; [done |]. split; [simpl in K1; lia | done]. }
  destruct (quiet_phase_run (Resting study_secs rest_secs) study_secs rest_secs
              rest_secs (255, 0, 0) (Some (255, 255, 0))
              (play_jingle rest_jingle (update_led (255, 0, 0) (board c1))) n)
    as (c2 & E2 & L2 & P2 & K2 & J2); [by right | done |].
  simpl in J1, J2.
  exists (board c2). split; [| split; [simpl in K1, K2; lia | by rewrite J2, J1]].
  unfold quiet_round. rewrite main_run_app, Hwork. unfold quiet_phase.
  change (quiet_ticks (Z.to_nat (rest_secs + 1)) ++ [idle 0; idle 0])
    with (quiet_ticks (Z.to_nat (rest_secs + 1)) ++ [idle 0] ++ [idle 0]).
  rewrite app_assoc, main_run_app. unfold rest_session. rewrite E2.
  rewrite main_run_cons. unfold main_step at 1. cbn [phase nested].
  rewrite L2, P2. done.
Qed.

Lemma quiet_round_returns_witness :
  0 <= 2 /\ 0 <= 1 /\
  nested (main_run (quiet_round 2 1)
            {| phase := work_session 2 1 false power_up; nested := 0 |}) = 0%nat /\
  exists b2,
    main_run (quiet_round 2 1)
      {| phase := work_session 2 1 false power_up; nested := 0 |}
    = {| phase := work_session 2 1 false b2; nested := 0 |} /\
    clock b2 = 5300.
Proof.
  assert (H2 : 0 <= 2) by (vm_compute; discriminate).
  assert (H1 : 0 <= 1) by (vm_compute; discriminate).
  destruct (quiet_round_returns 2 1 power_up 0 H2 H1) as (_ & b2 & E & K & _).
  split; [exact H2 |]. split; [exact H1 |]. split; [reflexivity |].
  exists b2. split; [exact E | exact K].
Defined.


(** Only a pass that reads the reset button pressed enters [main]. *)
Lemma restart_needs_reset (x : Sample) (c : Countdown) :
  (loc c = Polling ->
   (ticks_diff (end_time c) (ticks_ms (clock (pass x (board c)))) >? 0) = true ->
   not_ (btn_reset x) = false) ->
  loc c <> Restart -> loc (countdown_step x c) <> Restart.
Proof.
  intros Hx Hl.
  unfold countdown_step. cbv zeta.
  destruct (loc c) eqn:El; try done.
  - destruct (seconds c >=? 0); [| done].
    destruct (last_minute c _); done.
  - destruct (_ >? 0) eqn:Hd; [| done]. simpl.
    rewrite Hx; done.
  - destruct (paused_flag c); [| done]. by destruct (not_ (btn_confirm x)).
  - by rewrite El.
Qed.

Lemma no_reset_step (n : nat) (x : Sample) (p : Program) :
  reads_reset x p && not_ (btn_reset x) = false ->
  (nested p = n /\
   forall study_secs rest_secs c,
     phase p = Working study_secs rest_secs c \/
     phase p = Resting study_secs rest_secs c -> loc c <> Restart) ->
  nested (main_step x p) = n /\
  forall study_secs rest_secs c,
    phase (main_step x p) = Working study_secs rest_secs c \/
    phase (main_step x p) = Resting study_secs rest_secs c -> loc c <> Restart.
Proof.
  intros Hx (Hn & Hc). unfold main_step. unfold reads_reset in Hx.
  destruct (phase p) as [s | ss rs c | ss rs c] eqn:Hp.
  - destruct (set_times_result s) as [[a r]|]; simpl.
    + split; [done |]. unfold work_session.
      intros ss rs c [[= _ _ <-] | [=]]. done.
    + split; [done |]. intros ss rs c [[=] | [=]].
  - pose proof (Hc ss rs c (or_introl eq_refl)) as Hl.
    assert (Hstep : loc (countdown_step x c) <> Restart).
    { apply restart_needs_reset; [| done].
      intros El Hd. rewrite El, Hd in Hx. exact Hx. }
    destruct (loc c) eqn:El; try done; simpl; (split; [done |]).
    1-3: by intros ss' rs' c' [[= _ _ <-] | [=]].
    unfold rest_session. intros ss' rs' c' [[=] | [= _ _ <-]]. done.
  - pose proof (Hc ss rs c (or_intror eq_refl)) as Hl.
    assert (Hstep : loc (countdown_step x c) <> Restart).
    { apply restart_needs_reset; [| done].
      intros El Hd. rewrite El, Hd in Hx. exact Hx. }
    destruct (loc c) eqn:El; try done; simpl; (split; [done |]).
    1-3: by intros ss' rs' c' [[=] | [= _ _ <-]].
    unfold work_session. intros ss' rs' c' [[= _ _ <-] | [=]]. done.
Qed.

(** X20: as long as the reset button is never read pressed, [main] is
    never entered again and no countdown is left through its reset branch,
    whatever the other buttons do.  The button may be pressed in passes
    that do not read it: all of [set_times], the pass that opens a tick,
    a pass that finds the deadline reached, and the blink loop. *)
Theorem no_reset_no_restart (b : Board) (n : nat) (xs : list Sample) :
  reset_never_read_pressed xs (main b n) = true ->
  let p := main_run xs (main b n) in
  nested p = n /\
  forall study_secs rest_secs c,
    phase p = Working study_secs rest_secs c \/
    phase p = Resting study_secs rest_secs c -> loc c <> Restart.
Proof.
  assert (Hstart : nested (main b n) = n /\
                   forall study_secs rest_secs c,
                     phase (main b n) = Working study_secs rest_secs c \/
                     phase (main b n) = Resting study_secs rest_secs c ->
                     loc c <> Restart).
  { split; [done |]. intros ss rs c [[=] | [=]]. }
  revert Hstart. generalize (main b n) as p.
  induction xs as [|x xs IH]; intros p Hp Hxs; [exact Hp |].
  simpl in Hxs. apply andb_true_iff in Hxs as [Hx Hxs].
  apply negb_true_iff in Hx.
  rewrite main_run_cons. apply IH; [by apply no_reset_step | done].
Qed.

(** The reset button is held during [set_times], while the first tick
    opens, and during the pause; the wait loop reads it released. *)
Lemma no_reset_no_restart_witness :
  let xs := [press_reset 600; press_confirm 600; press_confirm 600; press_reset 0;
             press_reset 0; press_confirm 100; press_reset 50; press_reset 50;
             press_confirm 50; idle 0] in
  reset_never_read_pressed xs (main power_up 7) = true /\
  nested (main_run xs (main power_up 7)) = 7%nat.
Proof.
  intros xs.
  assert (Hxs : reset_never_read_pressed xs (main power_up 7) = true)
    by reflexivity.
  split; [exact Hxs |].
  exact (proj1 (no_reset_no_restart power_up 7 xs Hxs)).
Defined.

End MainMore.
